(** * ecommerce_system.py: users, products and orders

    A shallow embedding of the validation rules, the four entity classes and
    the three managers of [ecommerce_system.py], with the properties the
    specification states about them.

    Conventions of the embedding:
    - a Python [str] is a [string]; its characters are read as the code points
      U+0000..U+00FF, and the character classes below follow Python's Unicode
      tables on that range;
    - a Python [int] is a [Z], a Python [float] is a binary64 [float];
    - a dynamically typed argument (a JSON value, a quantity) is a [pyval];
    - a raised exception is a value [exn] with its class and message, and a
      method that mutates its object returns the object after the call next to
      its outcome, also when it raises. *)

From Stdlib Require Import ZArith String Ascii List Sorted Bool Lia DecimalString.
From Stdlib Require Import Floats.
From stdpp Require Import gmap strings.

Set Warnings "-register-all".

Open Scope string_scope.
Open Scope Z_scope.

(** ** Exceptions *)

Inductive exn_class :=
  | ValidationError | AuthenticationError | AuthorizationError | NotFoundError
  (* built-in classes the modelled code can raise *)
  | KeyError | TypeError | AttributeError | OverflowError
  (* raised by the embedding only: the value has a dynamic type that the typed
     records of this file cannot hold, or is a string handed to float() *)
  | Unsupported.

Record exn := Exn { exn_kind : exn_class; exn_msg : string }.

Inductive result (A : Type) :=
  | Ok (a : A)
  | Raise (e : exn).
Arguments Ok {A} a.
Arguments Raise {A} e.

Definition bind {A B} (m : result A) (k : A -> result B) : result B :=
  match m with
  | Ok a => k a
  | Raise e => Raise e
  end.

Notation "x <- m ;; k" := (bind m (fun x => k))
  (at level 100, m at next level, right associativity).
Notation "m ;;; k" := (bind m (fun _ => k))
  (at level 100, right associativity).

Definition raise {A} (c : exn_class) (msg : string) : result A := Raise (Exn c msg).

Definition is_ok {A} (r : result A) : bool :=
  match r with Ok _ => true | Raise _ => false end.

Definition raises {A} (r : result A) (c : exn_class) : Prop :=
  exists msg, r = Raise (Exn c msg).

(** ** Python values *)

Inductive pyval :=
  | VNone
  | VBool (b : bool)
  | VInt (z : Z)
  | VFloat (f : float)
  | VStr (s : string)
  | VList (l : list pyval)
  | VDict (d : list (string * pyval)).

(** Truth value of an object, as [not x] and [if x] test it. *)
Definition truthy (v : pyval) : bool :=
  match v with
  | VNone => false
  | VBool b => b
  | VInt z => negb (z =? 0)
  | VFloat f => negb (PrimFloat.eqb f 0%float)
  | VStr s => negb (String.eqb s "")
  | VList l => match l with [] => false | _ => true end
  | VDict d => match d with [] => false | _ => true end
  end.

(** [data[key]] on a dict, given as the list of its items (each key once). *)
Fixpoint dict_get (key : string) (d : list (string * pyval)) : result pyval :=
  match d with
  | [] => raise KeyError key
  | (k, v) :: d' => if String.eqb k key then Ok v else dict_get key d'
  end.

Definition getitem (data : pyval) (key : string) : result pyval :=
  match data with
  | VDict d => dict_get key d
  | _ => raise TypeError "object is not subscriptable by a string key"
  end.

(** [str(n)] for an int. *)
Definition str_of_int (z : Z) : string := NilZero.string_of_int (Z.to_int z).

(** [float(n)] for an int: the nearest binary64, ties to even;
    OverflowError when that is not finite. *)
Definition float_of_int (z : Z) : result float :=
  let f := SF2Prim (binary_normalize prec emax z 0 false) in
  if is_infinity f then raise OverflowError "int too large to convert to float"
  else Ok f.

(** [float(x)]. *)
Definition py_float (v : pyval) : result float :=
  match v with
  | VFloat f => Ok f
  | VInt z => float_of_int z
  | VBool b => Ok (if b then 1%float else 0%float)
  | VStr _ => raise Unsupported "float() of a string"
  | _ => raise TypeError "float() argument must be a string or a real number"
  end.

(** Readers of the typed fields. A bool is an int in Python ([True == 1],
    with the same hash), and is read as that int. *)
Definition as_str (v : pyval) : result string :=
  match v with VStr s => Ok s | _ => raise Unsupported "expected a str" end.
Definition as_int (v : pyval) : result Z :=
  match v with
  | VInt z => Ok z
  | VBool b => Ok (if b then 1 else 0)
  | _ => raise Unsupported "expected an int"
  end.
Definition as_bool (v : pyval) : result bool :=
  match v with VBool b => Ok b | _ => raise Unsupported "expected a bool" end.

(** ** Characters and strings *)

Definition code (c : ascii) : Z := Z.of_N (N_of_ascii c).

Definition in_range (lo hi : Z) (c : ascii) : bool :=
  (lo <=? code c) && (code c <=? hi).

(** [[0-9]], which on this range is also [\d] and category Nd. *)
Definition is_decimal (c : ascii) : bool := in_range 48 57 c.
(** [[A-Za-z]] *)
Definition is_ascii_letter (c : ascii) : bool := in_range 65 90 c || in_range 97 122 c.
(** [str.isalpha] on one character. *)
Definition is_alpha (c : ascii) : bool :=
  is_ascii_letter c || (code c =? 170) || (code c =? 181) || (code c =? 186)
  || in_range 192 214 c || in_range 216 246 c || in_range 248 255 c.
(** [str.isdigit] on one character: decimals and the superscripts 1, 2, 3. *)
Definition is_digit (c : ascii) : bool :=
  is_decimal c || (code c =? 178) || (code c =? 179) || (code c =? 185).
(** [str.isalnum] on one character; adds the fractions 1/4, 1/2, 3/4. *)
Definition is_alnum (c : ascii) : bool :=
  is_alpha c || is_digit c || in_range 188 190 c.
(** [\w]: alphanumeric or underscore. *)
Definition is_word (c : ascii) : bool := is_alnum c || (code c =? 95).
(** [\s] and [str.isspace] on one character. *)
Definition is_space (c : ascii) : bool :=
  in_range 9 13 c || in_range 28 32 c || (code c =? 133) || (code c =? 160).
(** [[A-Za-z0-9_]] *)
Definition is_username_char (c : ascii) : bool :=
  is_ascii_letter c || is_decimal c || (code c =? 95).

Definition chars (s : string) : list ascii := list_ascii_of_string s.

Definition len (s : string) : Z := Z.of_nat (String.length s).

(** [str.strip()] *)
Fixpoint lstrip (l : list ascii) : list ascii :=
  match l with
  | c :: l' => if is_space c then lstrip l' else l
  | [] => []
  end.
Definition strip (s : string) : string :=
  string_of_list_ascii (rev (lstrip (rev (lstrip (chars s))))).

(** [str.lower()] *)
Definition lower_char (c : ascii) : ascii :=
  if in_range 65 90 c || in_range 192 214 c || in_range 216 222 c
  then ascii_of_N (N_of_ascii c + 32) else c.
Definition lower (s : string) : string :=
  string_of_list_ascii (map lower_char (chars s)).

(** [str.isdigit()] *)
Definition isdigit (s : string) : bool :=
  negb (String.eqb s "") && forallb is_digit (chars s).

(** [str.startswith(prefixes)] for a tuple of prefixes. *)
Definition startswith (s : string) (prefixes : list string) : bool :=
  existsb (fun p => String.prefix p s) prefixes.

(** [x in t] for a tuple or list of strings. *)
Definition str_in (s : string) (t : list string) : bool :=
  existsb (String.eqb s) t.

(** [re.search] of a one-character class. *)
Definition search_class (cls : ascii -> bool) (s : string) : bool :=
  existsb cls (chars s).

(** [re.match(r'^[A-Za-z0-9_]+$', s)]: one or more class characters up to the
    end of the string, where [$] also matches before a final newline. *)
Fixpoint match_username_re (l : list ascii) : bool :=
  match l with
  | [] => false
  | c :: l' =>
      is_username_char c &&
      match l' with
      | [] => true
      | [nl] => (code nl =? 10) || is_username_char nl
      | _ => match_username_re l'
      end
  end.

(** [', '.join(t)] *)
Fixpoint join (sep : string) (t : list string) : string :=
  match t with
  | [] => ""
  | [s] => s
  | s :: t' => s ++ sep ++ join sep t'
  end.


(** ** Validators *)

Module Validators.

Definition PHONE_PREFIXES : list string := ["71"; "73"; "77"; "78"].

(** [existing_usernames] defaults to None, which [[]] stands for: both are
    false in the test [existing_usernames and ...]. *)
Definition validate_username (username : pyval) (existing_usernames : list string)
  : result bool :=
  if negb (truthy username) then raise ValidationError "Username is required"
  else match username with
  | VStr s =>
      if String.eqb (strip s) "" then raise ValidationError "Username is required"
      else if negb (match_username_re (chars s)) then
        raise ValidationError "Username must contain letters, digits or underscore only"
      else if match existing_usernames with [] => false | _ => str_in s existing_usernames end
      then raise ValidationError "The username is found"
      else Ok true
  | _ => raise AttributeError "object has no attribute 'strip'"
  end.

Definition validate_password_min (password : pyval) (min_len : Z) : result bool :=
  if negb (truthy password) then raise ValidationError "Password is required"
  else
    let too_short :=
      raise ValidationError
        ("Password must be at least " ++ str_of_int min_len ++ " characters") in
    match password with
    | VStr s =>
        if len s <? min_len then too_short
        else if negb (search_class is_decimal s) then
          raise ValidationError "Password must include at least one digit"
        else if negb (search_class is_ascii_letter s) then
          raise ValidationError "Password must include at least one letter"
        else if negb (search_class (fun c => negb (is_word c || is_space c)) s) then
          raise ValidationError "Password must include at least one special character"
        else Ok true
    | VList l =>
        if Z.of_nat (length l) <? min_len then too_short
        else raise TypeError "expected string or bytes-like object"
    | VDict d =>
        if Z.of_nat (length d) <? min_len then too_short
        else raise TypeError "expected string or bytes-like object"
    | _ => raise TypeError "object has no len()"
    end.

Definition validate_password (password : pyval) : result bool :=
  validate_password_min password 8.

Definition validate_phonenumber (phonenumber : pyval) : result bool :=
  if negb (truthy phonenumber) then raise ValidationError "Phone number is required"
  else match phonenumber with
  | VStr s =>
      if negb (isdigit s) then raise ValidationError "Phone number must contain digits only"
      else if negb (len s =? 9) then raise ValidationError "Phone number must be 9 digits"
      else if negb (startswith s PHONE_PREFIXES) then
        raise ValidationError
          ("Phone number must start with one of: " ++ join ", " PHONE_PREFIXES)
      else Ok true
  | _ => raise AttributeError "object has no attribute 'isdigit'"
  end.

Definition validate_usertype (usertype : pyval) : result bool :=
  if negb (truthy usertype) then raise ValidationError "User type is required"
  else match usertype with
  | VStr s =>
      if negb (str_in (lower s) ["admin"; "employee"; "customer"]) then
        raise ValidationError "User type must be one of: admin, employee, customer"
      else Ok true
  | _ => raise AttributeError "object has no attribute 'lower'"
  end.

Definition validate_gender (gender : pyval) : result bool :=
  if negb (truthy gender) then raise ValidationError "Gender is required"
  else match gender with
  | VStr s =>
      if negb (str_in (lower s) ["m"; "f"; "male"; "female"; "other"]) then
        raise ValidationError "Gender value seems invalid"
      else Ok true
  | _ => raise AttributeError "object has no attribute 'lower'"
  end.

Definition validate_product_id (pid : pyval) : result bool :=
  match pid with
  | VNone => raise ValidationError "Product ID is required"
  | _ => Ok true
  end.

Definition validate_product_name (name : pyval) : result bool :=
  if negb (truthy name) then raise ValidationError "Product name is required"
  else match name with
  | VStr s =>
      if String.eqb (strip s) "" then raise ValidationError "Product name is required"
      else Ok true
  | _ => raise AttributeError "object has no attribute 'strip'"
  end.

(** [except Exception] turns every failure of [float(price)] into a
    ValidationError; the embedding's own [Unsupported] passes through. *)
Definition validate_price (price : pyval) : result bool :=
  match py_float price with
  | Raise (Exn Unsupported msg) => raise Unsupported msg
  | Raise _ => raise ValidationError "Product price must be a number"
  | Ok p =>
      if PrimFloat.ltb p 0%float then
        raise ValidationError "Product price must be non-negative"
      else Ok true
  end.

(** [isinstance(qty, int)] holds of ints and of bools. *)
Definition validate_quantity (qty : pyval) : result bool :=
  let check (n : Z) : result bool :=
    if n <=? 0 then raise ValidationError "Quantity must be positive" else Ok true in
  match qty with
  | VInt z => check z
  | VBool b => check (if b then 1 else 0)
  | _ => raise ValidationError "Quantity must be integer"
  end.

End Validators.

(** ** Models *)

Module User.

Record t := mk {
  username : string;
  password : string;
  usertype : string;
  phonenumber : string;
  gender : string;
  isactive : bool
}.

(** [User.__init__] *)
Definition new (username password usertype phonenumber gender isactive : pyval)
  : result t :=
  Validators.validate_username username [] ;;;
  Validators.validate_password password ;;;
  Validators.validate_usertype usertype ;;;
  Validators.validate_phonenumber phonenumber ;;;
  Validators.validate_gender gender ;;;
  u <- as_str username ;;
  p <- as_str password ;;
  ut <- as_str usertype ;;
  ph <- as_str phonenumber ;;
  g <- as_str gender ;;
  a <- as_bool isactive ;;
  Ok (mk u p (lower ut) ph g a).

Definition activate (self : t) : t :=
  mk (username self) (password self) (usertype self) (phonenumber self) (gender self) true.

Definition deactivate (self : t) : t :=
  mk (username self) (password self) (usertype self) (phonenumber self) (gender self) false.

Definition to_dict (self : t) : pyval :=
  VDict [ ("username", VStr (username self));
          ("password", VStr (password self));
          ("usertype", VStr (usertype self));
          ("phonenumber", VStr (phonenumber self));
          ("gender", VStr (gender self));
          ("isactive", VBool (isactive self)) ].

Definition from_dict (data : pyval) : result t :=
  u <- getitem data "username" ;;
  p <- getitem data "password" ;;
  ut <- getitem data "usertype" ;;
  ph <- getitem data "phonenumber" ;;
  g <- getitem data "gender" ;;
  a <- getitem data "isactive" ;;
  new u p ut ph g a.

End User.

Module Product.

Record t := mk {
  id : Z;
  name : string;
  price : float;
  is_active : bool
}.

(** [Product.__init__] *)
Definition new (pid name price is_active : pyval) : result t :=
  Validators.validate_product_id pid ;;;
  Validators.validate_product_name name ;;;
  Validators.validate_price price ;;;
  i <- as_int pid ;;
  n <- as_str name ;;
  p <- py_float price ;;
  a <- as_bool is_active ;;
  Ok (mk i n p a).

(** ['k' in kwargs and kwargs['k'] is not None] *)
Definition supplied (kwargs : list (string * pyval)) (k : string) : option pyval :=
  match dict_get k kwargs with
  | Ok VNone => None
  | Ok v => Some v
  | Raise _ => None
  end.

(** [Product.update] with its keyword arguments as a dict: the fields are assigned one after the other,
    so the object returned next to a raised exception holds the
    assignments made before it. *)
Definition update (kwargs : list (string * pyval)) (self : t) : result unit * t :=
  let step1 : result unit * t :=
    match supplied kwargs "name" with
    | Some v =>
        match (Validators.validate_product_name v ;;; as_str v) with
        | Ok n => (Ok tt, mk (id self) n (price self) (is_active self))
        | Raise e => (Raise e, self)
        end
    | None => (Ok tt, self)
    end in
  match step1 with
  | (Raise e, self1) => (Raise e, self1)
  | (Ok _, self1) =>
      let step2 : result unit * t :=
        match supplied kwargs "price" with
        | Some v =>
            match (Validators.validate_price v ;;; py_float v) with
            | Ok p => (Ok tt, mk (id self1) (name self1) p (is_active self1))
            | Raise e => (Raise e, self1)
            end
        | None => (Ok tt, self1)
        end in
      match step2 with
      | (Raise e, self2) => (Raise e, self2)
      | (Ok _, self2) =>
          match supplied kwargs "is_active" with
          | Some v => (Ok tt, mk (id self2) (name self2) (price self2) (truthy v))
          | None => (Ok tt, self2)
          end
      end
  end.

Definition to_dict (self : t) : pyval :=
  VDict [ ("id", VInt (id self));
          ("name", VStr (name self));
          ("price", VFloat (price self));
          ("is_active", VBool (is_active self)) ].

Definition from_dict (data : pyval) : result t :=
  i <- getitem data "id" ;;
  n <- getitem data "name" ;;
  p <- getitem data "price" ;;
  a <- getitem data "is_active" ;;
  new i n p a.

End Product.

Module OrderItem.

Record t := mk {
  product_id : Z;
  quantity : Z;
  price_at_order : float
}.

(** [OrderItem.__init__] *)
Definition new (product_id quantity price_at_order : pyval) : result t :=
  Validators.validate_quantity quantity ;;;
  Validators.validate_price price_at_order ;;;
  i <- as_int product_id ;;
  q <- as_int quantity ;;
  p <- py_float price_at_order ;;
  Ok (mk i q p).

Definition to_dict (self : t) : pyval :=
  VDict [ ("product_id", VInt (product_id self));
          ("quantity", VInt (quantity self));
          ("price_at_order", VFloat (price_at_order self)) ].

Definition from_dict (data : pyval) : result t :=
  i <- getitem data "product_id" ;;
  q <- getitem data "quantity" ;;
  p <- getitem data "price_at_order" ;;
  new i q p.

End OrderItem.

(** [for x in v]: the elements a loop over [v] visits. *)
Definition iterate (v : pyval) : result (list pyval) :=
  match v with
  | VList l => Ok l
  | VDict d => Ok (map (fun kv => VStr (fst kv)) d)
  | VStr s => Ok (map (fun c => VStr (String c EmptyString)) (chars s))
  | _ => raise TypeError "object is not iterable"
  end.

Module Order.

Definition VALID_STATUSES : list string :=
  ["pending"; "confirmed"; "shipped"; "delivered"; "cancelled"].

Record t := mk {
  order_id : Z;
  user_username : string;
  items : list OrderItem.t;
  status : string
}.

(** [Order.__init__] *)
Definition new (order_id : Z) (user_username : string) : t :=
  mk order_id user_username [] "pending".

Definition add_item (item : OrderItem.t) (self : t) : t :=
  mk (order_id self) (user_username self) (items self ++ [item]) (status self).

(** [total += it.quantity * it.price_at_order], an int times a float. *)
Definition add_line (total : float) (it : OrderItem.t) : result float :=
  q <- float_of_int (OrderItem.quantity it) ;;
  Ok (total + q * OrderItem.price_at_order it)%float.

Fixpoint sum_lines (l : list OrderItem.t) (total : float) : result float :=
  match l with
  | [] => Ok total
  | it :: l' => t' <- add_line total it ;; sum_lines l' t'
  end.

Definition calculate_total (self : t) : result float :=
  sum_lines (items self) 0%float.

(** [Order.update_status]; the order is the one after the call. *)
Definition update_status (new_status : string) (self : t) : result t :=
  if negb (str_in new_status VALID_STATUSES) then
    raise ValidationError
      "Invalid status. Must be one of: ('pending', 'confirmed', 'shipped', 'delivered', 'cancelled')"
  else Ok (mk (order_id self) (user_username self) (items self) new_status).

Definition to_dict (self : t) : pyval :=
  VDict [ ("order_id", VInt (order_id self));
          ("user_username", VStr (user_username self));
          ("items", VList (map OrderItem.to_dict (items self)));
          ("status", VStr (status self)) ].

(** The loop of [from_dict] over [data['items']]. *)
Fixpoint load_items (l : list pyval) (order : t) : result t :=
  match l with
  | [] => Ok order
  | item_data :: l' =>
      item <- OrderItem.from_dict item_data ;;
      load_items l' (add_item item order)
  end.

Definition from_dict (data : pyval) : result t :=
  oid <- getitem data "order_id" ;;
  uname <- getitem data "user_username" ;;
  oid <- as_int oid ;;
  uname <- as_str uname ;;
  let order := new oid uname in
  st <- getitem data "status" ;;
  st <- as_str st ;;
  let order := mk (order_id order) (user_username order) (items order) st in
  its <- getitem data "items" ;;
  its <- iterate its ;;
  load_items its order.

End Order.

(** ** Persistence *)

(** What the manager finds at its [file_path]: no file, a file that cannot be
    read or is not JSON, or a file holding a JSON array. *)
Inductive file :=
  | NoFile
  | BadFile
  | JsonFile (data : list pyval).

(** The file and whether it can be opened for writing; a failed write is
    reported on the console and leaves the file as it was. *)
Record disk := Disk { content : file; writable : bool }.

Definition write (data : list pyval) (d : disk) : disk :=
  if writable d then Disk (JsonFile data) true else d.

(** [d.values()] and [d.keys()] of a manager's dict. The order of a [gmap]'s
    items is that of its keys, not that of insertion. *)
Definition values {K V} `{Countable K} (m : gmap K V) : list V :=
  map snd (map_to_list m).
Definition keys {K V} `{Countable K} (m : gmap K V) : list K :=
  map fst (map_to_list m).

(** ** Managers

    A method of a manager takes the manager before the call and returns its
    outcome with the manager after the call. *)

Module UserManager.

Record t := mk {
  users : gmap string User.t;
  storage : disk
}.

(** The loop of [load_users] over the records of the file. Only a
    JSONDecodeError or IOError is caught around it, so an exception of
    [User.from_dict] leaves [load_users] with the users read so far. *)
Fixpoint load_records (data : list pyval) (self : t) : result unit * t :=
  match data with
  | [] => (Ok tt, self)
  | user_data :: data' =>
      match User.from_dict user_data with
      | Raise e => (Raise e, self)
      | Ok user =>
          load_records data' (mk (<[User.username user := user]> (users self)) (storage self))
      end
  end.

Definition load_users (self : t) : result unit * t :=
  match content (storage self) with
  | NoFile => (Ok tt, self)
  | BadFile => (Ok tt, mk ∅ (storage self))
  | JsonFile data => load_records data self
  end.

(** [UserManager.__init__], for the file found on [d]. *)
Definition init (d : disk) : result t :=
  match load_users (mk ∅ d) with
  | (Ok _, self) => Ok self
  | (Raise e, _) => Raise e
  end.

Definition save_users (self : t) : t :=
  mk (users self) (write (map User.to_dict (values (users self))) (storage self)).

Definition add_user (username password usertype phonenumber gender : string)
    (isactive : bool) (self : t) : result User.t * t :=
  let checked :=
    Validators.validate_username (VStr username) (keys (users self)) ;;;
    Validators.validate_password (VStr password) ;;;
    Validators.validate_usertype (VStr usertype) ;;;
    Validators.validate_phonenumber (VStr phonenumber) ;;;
    Validators.validate_gender (VStr gender) ;;;
    User.new (VStr username) (VStr password) (VStr usertype) (VStr phonenumber)
      (VStr gender) (VBool isactive) in
  match checked with
  | Raise e => (Raise e, self)
  | Ok user =>
      (Ok user, save_users (mk (<[username := user]> (users self)) (storage self)))
  end.

Definition delete_user (username : string) (self : t) : result bool * t :=
  match users self !! username with
  | None => (raise NotFoundError "User not found", self)
  | Some _ => (Ok true, save_users (mk (delete username (users self)) (storage self)))
  end.

Definition find_user (username : string) (self : t) : option User.t :=
  users self !! username.

Definition list_users (self : t) : list User.t := values (users self).

(** [user] is the object held by the dict, so the change shows there. *)
Definition activate_user (username : string) (self : t) : result bool * t :=
  match find_user username self with
  | None => (raise NotFoundError "User not found", self)
  | Some user =>
      (Ok true, save_users (mk (<[username := User.activate user]> (users self)) (storage self)))
  end.

Definition deactivate_user (username : string) (self : t) : result bool * t :=
  match find_user username self with
  | None => (raise NotFoundError "User not found", self)
  | Some user =>
      (Ok true, save_users (mk (<[username := User.deactivate user]> (users self)) (storage self)))
  end.

End UserManager.

Module ProductManager.

Record t := mk {
  products : gmap Z Product.t;
  next_id : Z;
  storage : disk
}.

(** The loop of [load_products]; see [UserManager.load_records]. *)
Fixpoint load_records (data : list pyval) (self : t) : result unit * t :=
  match data with
  | [] => (Ok tt, self)
  | product_data :: data' =>
      match Product.from_dict product_data with
      | Raise e => (Raise e, self)
      | Ok product =>
          let pid := Product.id product in
          let self1 := mk (<[pid := product]> (products self)) (next_id self) (storage self) in
          let self2 :=
            if next_id self1 <=? pid
            then mk (products self1) (pid + 1) (storage self1) else self1 in
          load_records data' self2
      end
  end.

Definition load_products (self : t) : result unit * t :=
  match content (storage self) with
  | NoFile => (Ok tt, self)
  | BadFile => (Ok tt, mk ∅ 1 (storage self))
  | JsonFile data => load_records data self
  end.

(** [ProductManager.__init__], for the file found on [d]. *)
Definition init (d : disk) : result t :=
  match load_products (mk ∅ 1 d) with
  | (Ok _, self) => Ok self
  | (Raise e, _) => Raise e
  end.

Definition save_products (self : t) : t :=
  mk (products self) (next_id self)
     (write (map Product.to_dict (values (products self))) (storage self)).

Definition add_product (name : string) (price : pyval) (self : t)
  : result Product.t * t :=
  let pid := next_id self in
  let made :=
    Validators.validate_product_name (VStr name) ;;;
    Validators.validate_price price ;;;
    p <- py_float price ;;
    Product.new (VInt pid) (VStr name) (VFloat p) (VBool true) in
  match made with
  | Raise e => (Raise e, self)
  | Ok product =>
      (Ok product,
       save_products (mk (<[pid := product]> (products self)) (next_id self + 1) (storage self)))
  end.

(** [prod] is the object held by the dict: what [Product.update] assigned
    before raising stays in the store, unsaved. *)
Definition update_product (pid : Z) (kwargs : list (string * pyval)) (self : t)
  : result Product.t * t :=
  match products self !! pid with
  | None => (raise NotFoundError "Product not found", self)
  | Some prod =>
      match Product.update kwargs prod with
      | (Raise e, prod') =>
          (Raise e, mk (<[pid := prod']> (products self)) (next_id self) (storage self))
      | (Ok _, prod') =>
          (Ok prod',
           save_products (mk (<[pid := prod']> (products self)) (next_id self) (storage self)))
      end
  end.

(** [p.is_active = False] *)
Definition archive (p : Product.t) : Product.t :=
  Product.mk (Product.id p) (Product.name p) (Product.price p) false.

Definition delete_product (pid : Z) (allow_archive : bool) (self : t)
  : result bool * t :=
  match products self !! pid with
  | None => (raise NotFoundError "Product not found", self)
  | Some p =>
      if allow_archive then
        (Ok true,
         save_products (mk (<[pid := archive p]> (products self)) (next_id self) (storage self)))
      else
        (Ok true,
         save_products (mk (delete pid (products self)) (next_id self) (storage self)))
  end.

Definition find_product (pid : Z) (self : t) : option Product.t :=
  products self !! pid.

Definition list_products (include_inactive : bool) (self : t) : list Product.t :=
  if include_inactive then values (products self)
  else filter (fun p => Product.is_active p = true) (values (products self)).

End ProductManager.

Module OrderManager.

Record t := mk {
  orders : gmap Z Order.t;
  next_order_id : Z;
  storage : disk
}.

(** The loop of [load_orders]; see [UserManager.load_records]. *)
Fixpoint load_records (data : list pyval) (self : t) : result unit * t :=
  match data with
  | [] => (Ok tt, self)
  | order_data :: data' =>
      match Order.from_dict order_data with
      | Raise e => (Raise e, self)
      | Ok order =>
          let oid := Order.order_id order in
          let self1 := mk (<[oid := order]> (orders self)) (next_order_id self) (storage self) in
          let self2 :=
            if next_order_id self1 <=? oid
            then mk (orders self1) (oid + 1) (storage self1) else self1 in
          load_records data' self2
      end
  end.

Definition load_orders (self : t) : result unit * t :=
  match content (storage self) with
  | NoFile => (Ok tt, self)
  | BadFile => (Ok tt, mk ∅ 1 (storage self))
  | JsonFile data => load_records data self
  end.

(** [OrderManager.__init__], for the file found on [d]. The product manager
    it keeps a reference to is the argument [pm] of [create_order]. *)
Definition init (d : disk) : result t :=
  match load_orders (mk ∅ 1 d) with
  | (Ok _, self) => Ok self
  | (Raise e, _) => Raise e
  end.

Definition save_orders (self : t) : t :=
  mk (orders self) (next_order_id self)
     (write (map Order.to_dict (values (orders self))) (storage self)).

(** The loop of [create_order] over the (product id, quantity) pairs; it
    works on the local [order] and reads the product manager. *)
Fixpoint add_items (pm : ProductManager.t) (items : list (Z * pyval)) (order : Order.t)
  : result Order.t :=
  match items with
  | [] => Ok order
  | (pid, qty) :: items' =>
      match ProductManager.find_product pid pm with
      | None => raise NotFoundError ("Product " ++ str_of_int pid ++ " not found")
      | Some product =>
          if negb (Product.is_active product) then
            raise ValidationError ("Product " ++ str_of_int pid ++ " is not active")
          else
            Validators.validate_quantity qty ;;;
            order_item <- OrderItem.new (VInt pid) qty (VFloat (Product.price product)) ;;
            add_items pm items' (Order.add_item order_item order)
      end
  end.

Definition create_order (pm : ProductManager.t) (customer_username : string)
    (items : list (Z * pyval)) (self : t) : result Order.t * t :=
  let oid := next_order_id self in
  let order := Order.new oid customer_username in
  match add_items pm items order with
  | Raise e => (Raise e, self)
  | Ok order =>
      (Ok order,
       save_orders (mk (<[oid := order]> (orders self)) (next_order_id self + 1) (storage self)))
  end.

Definition find_order (order_id : Z) (self : t) : option Order.t :=
  orders self !! order_id.

Definition list_orders (self : t) : list Order.t := values (orders self).

Definition list_user_orders (username : string) (self : t) : list Order.t :=
  filter (fun o => Order.user_username o = username) (values (orders self)).

Definition update_order_status (order_id : Z) (new_status : string) (self : t)
  : result Order.t * t :=
  match find_order order_id self with
  | None => (raise NotFoundError "Order not found", self)
  | Some order =>
      match Order.update_status (lower new_status) order with
      | Raise e => (Raise e, self)
      | Ok order' =>
          (Ok order',
           save_orders (mk (<[order_id := order']> (orders self)) (next_order_id self) (storage self)))
      end
  end.

End OrderManager.

(** ** System *)

Module System.

(** [current_user] is held by value; it is read here only right after
    [login] has set it. *)
Record t := mk {
  user_manager : UserManager.t;
  product_manager : ProductManager.t;
  order_manager : OrderManager.t;
  current_user : option User.t
}.

Definition login (username password : string) (self : t) : result User.t * t :=
  match UserManager.find_user username (user_manager self) with
  | None => (raise AuthenticationError "Username not found", self)
  | Some user =>
      if negb (User.isactive user) then
        (raise AuthenticationError "User account is not active", self)
      else if negb (String.eqb (User.password user) password) then
        (raise AuthenticationError "Incorrect password", self)
      else
        (Ok user,
         mk (user_manager self) (product_manager self) (order_manager self) (Some user))
  end.

Definition logout (self : t) : t :=
  mk (user_manager self) (product_manager self) (order_manager self) None.

End System.

(** * Properties *)

(** ** Outcomes *)

Lemma bind_ok {A B} (m : result A) (k : A -> result B) (b : B) :
  bind m k = Ok b -> exists a, m = Ok a /\ k a = Ok b.
Proof. destruct m as [a|e]; simpl; [eauto | discriminate]. Qed.

Lemma bind_raise {A B} (m : result A) (k : A -> result B) (e : exn) :
  bind m k = Raise e -> m = Raise e \/ exists a, m = Ok a /\ k a = Raise e.
Proof. destruct m as [a|e']; simpl; [eauto | intros [= ->]; auto]. Qed.

Lemma is_ok_true {A} (r : result A) : is_ok r = true <-> exists a, r = Ok a.
Proof.
  destruct r; simpl; split; eauto; try discriminate.
  intros [a [=]].
Qed.

Ltac inv_bind H :=
  let a := fresh "a" in
  let Ha := fresh "Ha" in
  apply bind_ok in H; destruct H as (a & Ha & H).

(** ** The order-creation loop *)

Section CreateOrder.

Variable pm : ProductManager.t.

(** A pair that the loop of [create_order] cannot get past. *)
Definition item_fails (it : Z * pyval) : Prop :=
  match ProductManager.find_product (fst it) pm with
  | None => True
  | Some product =>
      Product.is_active product = false \/
      is_ok (Validators.validate_quantity (snd it)) = false
  end.

Lemma add_items_fails (items : list (Z * pyval)) :
  Exists item_fails items ->
  forall order, exists e, OrderManager.add_items pm items order = Raise e.
Proof.
  induction items as [|[pid qty] items IH]; intros Hex order.
  - inversion Hex.
  - simpl. unfold item_fails in Hex.
    destruct (ProductManager.find_product pid pm) as [product|] eqn:Hfind.
    2:{ eexists; reflexivity. }
    destruct (Product.is_active product) eqn:Hact; simpl.
    2:{ eexists; reflexivity. }
    destruct (Validators.validate_quantity qty) as [b|e] eqn:Hq; simpl.
    2:{ eexists; reflexivity. }
    destruct (OrderItem.new (VInt pid) qty (VFloat (Product.price product)))
      as [item|e] eqn:Hnew; simpl.
    2:{ eexists; reflexivity. }
    apply IH. inversion Hex as [? ? Hhd|? ? Htl]; subst; [|assumption].
    simpl in Hhd. rewrite Hfind, Hact, Hq in Hhd. simpl in Hhd.
    destruct Hhd; discriminate.
Qed.

(** The loop raises nothing but NotFoundError, for an absent product, and
    ValidationError. *)
Lemma validate_quantity_raises qty e :
  Validators.validate_quantity qty = Raise e -> exn_kind e = ValidationError.
Proof.
  unfold Validators.validate_quantity.
  destruct qty as [|b|z| | | |]; try (intros [= <-]; reflexivity).
  - destruct (_ <=? 0); [intros [= <-]; reflexivity | discriminate].
  - destruct (z <=? 0); [intros [= <-]; reflexivity | discriminate].
Qed.

Lemma order_item_new_raises pid qty f e :
  OrderItem.new (VInt pid) qty (VFloat f) = Raise e -> exn_kind e = ValidationError.
Proof.
  unfold OrderItem.new. intros H.
  apply bind_raise in H as [H|(b & Hq & H)]; [eauto using validate_quantity_raises|].
  apply bind_raise in H as [H|(b' & Hp & H)].
  - unfold Validators.validate_price in H. simpl in H.
    destruct (PrimFloat.ltb f 0); [injection H as <-; reflexivity | discriminate].
  - simpl in H. unfold Validators.validate_quantity in Hq.
    destruct qty as [|c|z| | | |]; try discriminate; simpl in H; discriminate.
Qed.

Lemma add_items_raises (items : list (Z * pyval)) :
  forall order e,
    OrderManager.add_items pm items order = Raise e ->
    exn_kind e = ValidationError \/
    (exn_kind e = NotFoundError /\
     Exists (fun it => ProductManager.find_product (fst it) pm = None) items).
Proof.
  induction items as [|[pid qty] items IH]; intros order e H; simpl in H.
  - discriminate.
  - destruct (ProductManager.find_product pid pm) as [product|] eqn:Hfind.
    2:{ injection H as <-. right. split; [reflexivity|]. constructor. exact Hfind. }
    destruct (Product.is_active product); simpl in H.
    2:{ injection H as <-. left. reflexivity. }
    apply bind_raise in H as [H|(b & Hq & H)].
    { left. eauto using validate_quantity_raises. }
    apply bind_raise in H as [H|(item & Hnew & H)].
    { left. eauto using order_item_new_raises. }
    apply IH in H as [H|[H Hex]]; [left; exact H|right].
    split; [exact H|]. apply Exists_cons_tl. exact Hex.
Qed.

End CreateOrder.

(** ** Sample stores *)

Definition empty_disk : disk := Disk NoFile true.

(** A catalog with "Pen" (id 1, 1.50) and "Book" (id 2, 9.99). *)
Definition sample_catalog : ProductManager.t :=
  let pm0 := ProductManager.mk ∅ 1 empty_disk in
  let pm1 := snd (ProductManager.add_product "Pen" (VFloat 1.5) pm0) in
  snd (ProductManager.add_product "Book" (VFloat 0x1.3fae147ae147bp+3) pm1).

Definition no_orders : OrderManager.t := OrderManager.mk ∅ 1 empty_disk.

(** ** create_order commits nothing on failure *)

(** C1. [create_order] is all-or-nothing: when some (product id, quantity)
    pair of the list names an absent product, an inactive product, or a
    quantity that is not a positive integer, the call raises and the order
    manager after it is the one before it: same orders, same
    [next_order_id], same file. *)
Theorem create_order_all_or_nothing
  (pm : ProductManager.t) (username : string) (items : list (Z * pyval))
  (om : OrderManager.t) :
  Exists (item_fails pm) items ->
  exists e, OrderManager.create_order pm username items om = (Raise e, om).
Proof.
  intros Hex. unfold OrderManager.create_order.
  destruct (add_items_fails pm items Hex
              (Order.new (OrderManager.next_order_id om) username)) as [e He].
  rewrite He. exists e. reflexivity.
Qed.

Lemma create_order_all_or_nothing_witness :
  exists e,
    OrderManager.create_order sample_catalog "bob" [(2, VInt 3); (99, VInt 1)] no_orders
    = (Raise e, no_orders).
Proof.
  apply (create_order_all_or_nothing sample_catalog "bob" [(2, VInt 3); (99, VInt 1)] no_orders).
  apply Exists_cons_tl, Exists_cons_hd. vm_compute. exact I.
Defined.

(** ** An empty cart *)

(** C10. [create_order] with an empty list of items succeeds: the order it
    returns has no items, status "pending" and total 0.0; it is stored under
    the id the counter held, and the counter moves on by one. *)
Theorem create_order_empty_cart
  (pm : ProductManager.t) (username : string) (om : OrderManager.t) :
  exists order om',
    OrderManager.create_order pm username [] om = (Ok order, om') /\
    Order.order_id order = OrderManager.next_order_id om /\
    Order.items order = [] /\
    Order.status order = "pending" /\
    Order.calculate_total order = Ok 0%float /\
    OrderManager.find_order (OrderManager.next_order_id om) om' = Some order /\
    OrderManager.next_order_id om' = OrderManager.next_order_id om + 1.
Proof.
  eexists _, _. split; [reflexivity|]. simpl.
  repeat split; try reflexivity.
  unfold OrderManager.find_order. simpl. apply lookup_insert_eq.
Qed.

(** ** Totals and price snapshots *)

(** Two floats that Python's [==] does not tell apart, or that are both NaN:
    equal, or two zeros that differ in sign. *)
Definition same_number (a b : float) : Prop :=
  a = b \/ PrimFloat.eqb a b = true.

Definition same_outcome (r1 r2 : result float) : Prop :=
  match r1, r2 with
  | Ok a, Ok b => same_number a b
  | Raise e1, Raise e2 => e1 = e2
  | _, _ => False
  end.

(** The expression [q1 * price1 + q2 * price2] on Python values. *)
Definition two_line_total (q1 : Z) (price1 : float) (q2 : Z) (price2 : float)
  : result float :=
  f1 <- float_of_int q1 ;;
  f2 <- float_of_int q2 ;;
  Ok (f1 * price1 + f2 * price2)%float.

(** The operations of the catalog, as the menus reach them. *)
Inductive catalog_op :=
  | AddProduct (name : string) (price : pyval)
  | UpdateProduct (pid : Z) (kwargs : list (string * pyval))
  | DeleteProduct (pid : Z) (allow_archive : bool).

(** One operation on the product manager: the id it assigned, if it added a
    product, and the manager after it. *)
Definition catalog_step (op : catalog_op) (pm : ProductManager.t)
  : option Z * ProductManager.t :=
  match op with
  | AddProduct name price =>
      match ProductManager.add_product name price pm with
      | (Ok product, pm') => (Some (Product.id product), pm')
      | (Raise _, pm') => (None, pm')
      end
  | UpdateProduct pid kwargs => (None, snd (ProductManager.update_product pid kwargs pm))
  | DeleteProduct pid allow_archive =>
      (None, snd (ProductManager.delete_product pid allow_archive pm))
  end.

(** [self.order_manager.create_order(username, items)] on a system. *)
Definition system_create_order (username : string) (items : list (Z * pyval))
  (sys : System.t) : result Order.t * System.t :=
  let (r, om') :=
    OrderManager.create_order (System.product_manager sys) username items
      (System.order_manager sys) in
  (r, System.mk (System.user_manager sys) (System.product_manager sys) om'
        (System.current_user sys)).

(** A catalog operation on a system: it is a call on [self.product_manager]. *)
Definition system_catalog_step (sys : System.t) (op : catalog_op) : System.t :=
  System.mk (System.user_manager sys)
    (snd (catalog_step op (System.product_manager sys)))
    (System.order_manager sys) (System.current_user sys).

Definition system_catalog_run (ops : list catalog_op) (sys : System.t) : System.t :=
  fold_left system_catalog_step ops sys.

Lemma add_zero_l (x : float) :
  Prim2SF x <> S754_zero true -> (0 + x)%float = x.
Proof.
  intros Hx. apply Prim2SF_inj. rewrite FloatAxioms.add_spec.
  change (Prim2SF 0%float) with (S754_zero false).
  destruct (Prim2SF x) as [[|]| | |]; try reflexivity. congruence.
Qed.

(** Starting the sum at 0.0 changes at most the sign of a zero. *)
Lemma sum_from_zero (x y : float) :
  same_number (0 + x + y)%float (x + y)%float.
Proof.
  destruct (Prim2SF x) as [[|]| | |] eqn:Hx;
    try (left; rewrite add_zero_l; [reflexivity | rewrite Hx; discriminate]).
  assert (x = (-0)%float) as -> by (apply Prim2SF_inj; rewrite Hx; reflexivity).
  change (0 + -0)%float with 0%float.
  destruct (Prim2SF y) as [s| | |] eqn:Hy.
  - right. rewrite FloatAxioms.eqb_spec, !FloatAxioms.add_spec, Hy.
    change (Prim2SF 0%float) with (S754_zero false).
    change (Prim2SF (-0)%float) with (S754_zero true).
    destruct s; reflexivity.
  - left. apply Prim2SF_inj. rewrite !FloatAxioms.add_spec, Hy. reflexivity.
  - left. apply Prim2SF_inj. rewrite !FloatAxioms.add_spec, Hy. reflexivity.
  - left. apply Prim2SF_inj. rewrite !FloatAxioms.add_spec, Hy. reflexivity.
Qed.

Lemma order_item_new_ok pid qty f item :
  OrderItem.new (VInt pid) qty (VFloat f) = Ok item ->
  exists n, as_int qty = Ok n /\ item = OrderItem.mk pid n f.
Proof.
  unfold OrderItem.new. intros H.
  inv_bind H. inv_bind H. simpl in H.
  destruct (as_int qty) as [n|e]; simpl in H; [|discriminate].
  injection H as <-. eauto.
Qed.

Lemma add_items_step pm pid qty items order order' :
  OrderManager.add_items pm ((pid, qty) :: items) order = Ok order' ->
  exists product n,
    ProductManager.find_product pid pm = Some product /\
    Product.is_active product = true /\
    Validators.validate_quantity qty = Ok true /\
    as_int qty = Ok n /\
    OrderManager.add_items pm items
      (Order.add_item (OrderItem.mk pid n (Product.price product)) order) = Ok order'.
Proof.
  simpl. intros H.
  destruct (ProductManager.find_product pid pm) as [product|]; [|discriminate].
  destruct (Product.is_active product) eqn:Hact; simpl in H; [|discriminate].
  apply bind_ok in H as (b & Hq & H).
  apply bind_ok in H as (item & Hnew & H).
  apply order_item_new_ok in Hnew as (n & Hn & ->).
  exists product, n. repeat split; try assumption.
  unfold Validators.validate_quantity in *.
  destruct qty as [|[|]|z| | | |]; try discriminate; try reflexivity.
  destruct (z <=? 0); [discriminate | reflexivity].
Qed.

Lemma system_catalog_run_orders ops sys :
  System.order_manager (system_catalog_run ops sys) = System.order_manager sys.
Proof.
  revert sys. induction ops as [|op ops IH]; intros sys; simpl; [reflexivity|].
  rewrite IH. reflexivity.
Qed.

(** C2. An order created from the items [(p1, q1); (p2, q2)] holds the two
    lines with the catalog prices of that moment, and [calculate_total]
    returns [q1 * price(p1) + q2 * price(p2)] at those prices (the loop starts
    from 0.0, which can only change the sign of a zero total). Whatever
    catalog operations follow, the order manager still holds that order, so
    its total is what it was: the prices are copied into [price_at_order]
    and not read again. *)
Theorem order_total_is_price_snapshot
  (sys sys1 : System.t) (username : string) (p1 p2 : Z) (q1 q2 : pyval)
  (order : Order.t) :
  system_create_order username [(p1, q1); (p2, q2)] sys = (Ok order, sys1) ->
  exists product1 product2 n1 n2,
    ProductManager.find_product p1 (System.product_manager sys) = Some product1 /\
    ProductManager.find_product p2 (System.product_manager sys) = Some product2 /\
    as_int q1 = Ok n1 /\ as_int q2 = Ok n2 /\
    Order.items order =
      [OrderItem.mk p1 n1 (Product.price product1);
       OrderItem.mk p2 n2 (Product.price product2)] /\
    same_outcome (Order.calculate_total order)
      (two_line_total n1 (Product.price product1) n2 (Product.price product2)) /\
    forall ops : list catalog_op,
      OrderManager.find_order (Order.order_id order)
        (System.order_manager (system_catalog_run ops sys1)) = Some order.
Proof.
  unfold system_create_order, OrderManager.create_order.
  destruct (OrderManager.add_items _ _ _) as [o|e] eqn:Hadd; [|discriminate].
  intros [= -> <-].
  apply add_items_step in Hadd as (product1 & n1 & Hf1 & _ & _ & Hn1 & Hadd).
  apply add_items_step in Hadd as (product2 & n2 & Hf2 & _ & _ & Hn2 & Hadd).
  simpl in Hadd. injection Hadd as <-.
  exists product1, product2, n1, n2. repeat split; try assumption.
  - unfold same_outcome, Order.calculate_total, two_line_total. simpl.
    unfold Order.add_line. simpl.
    destruct (float_of_int n1) as [f1|e1]; simpl; [|reflexivity].
    destruct (float_of_int n2) as [f2|e2]; simpl; [|reflexivity].
    apply sum_from_zero.
  - intros ops. rewrite system_catalog_run_orders. simpl.
    unfold OrderManager.find_order. simpl. apply lookup_insert_eq.
Qed.

Definition sample_system : System.t :=
  System.mk (UserManager.mk ∅ empty_disk) sample_catalog no_orders None.

Definition sample_order : Order.t :=
  Order.mk 1 "bob"
    [OrderItem.mk 1 2 1.5; OrderItem.mk 2 3 0x1.3fae147ae147bp+3] "pending".

Lemma order_total_is_price_snapshot_witness :
  exists product1 product2 n1 n2,
    ProductManager.find_product 1 (System.product_manager sample_system) = Some product1 /\
    ProductManager.find_product 2 (System.product_manager sample_system) = Some product2 /\
    as_int (VInt 2) = Ok n1 /\ as_int (VInt 3) = Ok n2 /\
    Order.items sample_order =
      [OrderItem.mk 1 n1 (Product.price product1);
       OrderItem.mk 2 n2 (Product.price product2)] /\
    same_outcome (Order.calculate_total sample_order)
      (two_line_total n1 (Product.price product1) n2 (Product.price product2)) /\
    forall ops : list catalog_op,
      OrderManager.find_order (Order.order_id sample_order)
        (System.order_manager
           (system_catalog_run ops
              (snd (system_create_order "bob" [(1, VInt 2); (2, VInt 3)] sample_system))))
      = Some sample_order.
Proof.
  apply (order_total_is_price_snapshot sample_system
           (snd (system_create_order "bob" [(1, VInt 2); (2, VInt 3)] sample_system))
           "bob" 1 2 (VInt 2) (VInt 3) sample_order).
  vm_compute. reflexivity.
Defined.

(** ** Archived products *)

(** C3 as stated fails: an order that names an absent product before the
    archived one is refused with NotFoundError, not ValidationError. *)
Lemma archived_product_order_counterexample :
  ProductManager.find_product 1 (snd (ProductManager.delete_product 1 true sample_catalog))
  = Some (Product.mk 1 "Pen" 1.5 false) /\
  OrderManager.create_order (snd (ProductManager.delete_product 1 true sample_catalog))
    "bob" [(99, VInt 1); (1, VInt 1)] no_orders
  = (Raise (Exn NotFoundError "Product 99 not found"), no_orders).
Proof. split; vm_compute; reflexivity. Qed.

(** C3, amended. For a product [p] of the catalog,
    [delete_product(p.id, allow_archive=True)] returns True and
    [find_product(p.id)] then returns [p] with [is_active] False and its other
    fields as they were. After it every [create_order] whose items name
    [p.id] raises and stores nothing; the exception is a ValidationError,
    unless an item names a product that is absent from the catalog, where it
    can be the NotFoundError of that item. When [p.id] is the first item the
    exception is ValidationError "Product <id> is not active". *)
Theorem archived_product_cannot_be_ordered (pm : ProductManager.t) (p : Product.t) :
  ProductManager.find_product (Product.id p) pm = Some p ->
  exists pm',
    ProductManager.delete_product (Product.id p) true pm = (Ok true, pm') /\
    ProductManager.find_product (Product.id p) pm'
    = Some (Product.mk (Product.id p) (Product.name p) (Product.price p) false) /\
    forall (username : string) (items : list (Z * pyval)) (om : OrderManager.t),
      In (Product.id p) (map fst items) ->
      exists e,
        OrderManager.create_order pm' username items om = (Raise e, om) /\
        (exn_kind e = ValidationError \/
         (exn_kind e = NotFoundError /\
          Exists (fun it => ProductManager.find_product (fst it) pm' = None) items)) /\
        (forall qty rest, items = (Product.id p, qty) :: rest ->
           e = Exn ValidationError
                 ("Product " ++ str_of_int (Product.id p) ++ " is not active")).
Proof.
  intros Hfind. unfold ProductManager.find_product in Hfind.
  unfold ProductManager.delete_product. rewrite Hfind.
  eexists. split; [reflexivity|].
  assert (Hfind' :
    ProductManager.find_product (Product.id p)
      (ProductManager.save_products
         (ProductManager.mk (<[Product.id p := ProductManager.archive p]> (ProductManager.products pm))
            (ProductManager.next_id pm) (ProductManager.storage pm)))
    = Some (ProductManager.archive p)).
  { unfold ProductManager.find_product. simpl. apply lookup_insert_eq. }
  split; [exact Hfind'|].
  intros username items om Hin.
  set (pm' := ProductManager.save_products _) in *.
  assert (Hex : Exists (item_fails pm') items).
  { apply List.Exists_exists. apply in_map_iff in Hin as ([pid qty] & Hpid & Hin).
    simpl in Hpid. subst pid. exists (Product.id p, qty). split; [exact Hin|].
    unfold item_fails. simpl. rewrite Hfind'. left. reflexivity. }
  unfold OrderManager.create_order.
  destruct (OrderManager.add_items pm' items (Order.new (OrderManager.next_order_id om) username))
    as [o|e] eqn:Hadd.
  { destruct (add_items_fails pm' items Hex
                (Order.new (OrderManager.next_order_id om) username)) as [e He].
    congruence. }
  exists e. split; [reflexivity|]. split.
  - eapply add_items_raises. exact Hadd.
  - intros qty rest ->. simpl in Hadd. rewrite Hfind' in Hadd. simpl in Hadd.
    injection Hadd as <-. reflexivity.
Qed.

Lemma archived_product_cannot_be_ordered_witness :
  exists pm',
    ProductManager.delete_product 1 true sample_catalog = (Ok true, pm') /\
    ProductManager.find_product 1 pm' = Some (Product.mk 1 "Pen" 1.5 false) /\
    forall (username : string) (items : list (Z * pyval)) (om : OrderManager.t),
      In 1 (map fst items) ->
      exists e,
        OrderManager.create_order pm' username items om = (Raise e, om) /\
        (exn_kind e = ValidationError \/
         (exn_kind e = NotFoundError /\
          Exists (fun it => ProductManager.find_product (fst it) pm' = None) items)) /\
        (forall qty rest, items = (1, qty) :: rest ->
           e = Exn ValidationError ("Product " ++ str_of_int 1 ++ " is not active")).
Proof.
  apply (archived_product_cannot_be_ordered sample_catalog (Product.mk 1 "Pen" 1.5 true)).
  vm_compute. reflexivity.
Defined.

(** ** Unique usernames *)

Lemma str_in_spec (s : string) (t : list string) : str_in s t = true <-> In s t.
Proof.
  unfold str_in. rewrite existsb_exists. split.
  - intros (x & Hin & Heq). apply String.eqb_eq in Heq. subst. exact Hin.
  - intros Hin. exists s. split; [exact Hin | apply String.eqb_refl].
Qed.

Lemma str_in_keys {V} (u : string) (m : gmap string V) :
  str_in u (keys m) = true <-> is_Some (m !! u).
Proof.
  rewrite str_in_spec. unfold keys. rewrite in_map_iff. split.
  - intros ([k v] & Hk & Hin). simpl in Hk. subst k.
    apply list_elem_of_In, elem_of_map_to_list in Hin. eauto.
  - intros [v Hv]. exists (u, v). split; [reflexivity|].
    apply list_elem_of_In, elem_of_map_to_list. exact Hv.
Qed.

Lemma validate_username_existing (u : string) (existing : list string) :
  Validators.validate_username (VStr u) [] = Ok true ->
  In u existing ->
  Validators.validate_username (VStr u) existing
  = Raise (Exn ValidationError "The username is found").
Proof.
  unfold Validators.validate_username. intros Hok Hin.
  destruct (negb (truthy (VStr u))); [discriminate|].
  destruct (String.eqb (strip u) ""); [discriminate|].
  destruct (negb (match_username_re (chars u))); [discriminate|].
  apply str_in_spec in Hin.
  destruct existing as [|x existing]; [discriminate|].
  rewrite Hin. reflexivity.
Qed.

Lemma validate_username_weaken (u : string) (existing : list string) :
  is_ok (Validators.validate_username (VStr u) existing) = true ->
  Validators.validate_username (VStr u) [] = Ok true.
Proof.
  unfold Validators.validate_username.
  destruct (negb (truthy (VStr u))); [discriminate|].
  destruct (String.eqb (strip u) ""); [discriminate|].
  destruct (negb (match_username_re (chars u))); [discriminate|].
  reflexivity.
Qed.

(** C9. Once [add_user] has accepted a username, the store holds the user
    under it, and every later [add_user] with that username, whatever the
    other fields, on a store that still holds it raises ValidationError
    ("The username is found") and leaves the store as it was. *)
Theorem add_user_rejects_duplicate
  (um um1 : UserManager.t) (username password usertype phonenumber gender : string)
  (isactive : bool) (user : User.t) :
  UserManager.add_user username password usertype phonenumber gender isactive um
  = (Ok user, um1) ->
  UserManager.find_user username um1 = Some user /\
  forall (um2 : UserManager.t) (password' usertype' phonenumber' gender' : string)
         (isactive' : bool),
    is_Some (UserManager.find_user username um2) ->
    UserManager.add_user username password' usertype' phonenumber' gender' isactive' um2
    = (Raise (Exn ValidationError "The username is found"), um2).
Proof.
  unfold UserManager.add_user at 1.
  destruct (Validators.validate_username (VStr username) (keys (UserManager.users um)))
    as [b|e] eqn:Hname; simpl; [|discriminate].
  match goal with |- context [match ?r with Ok _ => _ | Raise _ => _ end] =>
    destruct r as [usr|e] eqn:Hrest end; [|discriminate].
  intros [= -> <-]. split.
  - unfold UserManager.find_user. simpl. apply lookup_insert_eq.
  - intros um2 password' usertype' phonenumber' gender' isactive' Hsome.
    unfold UserManager.add_user.
    rewrite (validate_username_existing username (keys (UserManager.users um2))).
    + reflexivity.
    + apply (validate_username_weaken username (keys (UserManager.users um))).
      rewrite Hname. reflexivity.
    + apply str_in_spec, str_in_keys. exact Hsome.
Qed.

Definition no_users : UserManager.t := UserManager.mk ∅ empty_disk.

Lemma add_user_rejects_duplicate_witness :
  UserManager.find_user "alice"
    (snd (UserManager.add_user "alice" "Secret1!" "customer" "771234567" "f" true no_users))
  = Some (User.mk "alice" "Secret1!" "customer" "771234567" "f" true) /\
  forall (um2 : UserManager.t) (password' usertype' phonenumber' gender' : string)
         (isactive' : bool),
    is_Some (UserManager.find_user "alice" um2) ->
    UserManager.add_user "alice" password' usertype' phonenumber' gender' isactive' um2
    = (Raise (Exn ValidationError "The username is found"), um2).
Proof.
  apply (add_user_rejects_duplicate no_users
           (snd (UserManager.add_user "alice" "Secret1!" "customer" "771234567" "f" true no_users))
           "alice" "Secret1!" "customer" "771234567" "f" true
           (User.mk "alice" "Secret1!" "customer" "771234567" "f" true)).
  vm_compute. reflexivity.
Defined.

(** ** Order status *)

(** An order manager holding bob's pending order 1 for three books. *)
Definition one_order : OrderManager.t :=
  snd (OrderManager.create_order sample_catalog "bob" [(2, VInt 3)] no_orders).

(** C7 as stated fails: "SHIPPED" is not one of the five statuses, yet
    [update_order_status] accepts it, and the status it stores is "shipped",
    not the argument. *)
Lemma update_order_status_counterexample :
  str_in "SHIPPED" Order.VALID_STATUSES = false /\
  OrderManager.find_order 1 one_order
  = Some (Order.mk 1 "bob" [OrderItem.mk 2 3 0x1.3fae147ae147bp+3] "pending") /\
  fst (OrderManager.update_order_status 1 "SHIPPED" one_order)
  = Ok (Order.mk 1 "bob" [OrderItem.mk 2 3 0x1.3fae147ae147bp+3] "shipped").
Proof. repeat split; vm_compute; reflexivity. Qed.

(** C7, amended. [update_order_status(order_id, new_status)] raises
    NotFoundError when no order has that id and ValidationError when
    [new_status.lower()] is not one of the five statuses; in both cases the
    manager, and so the stored status, is unchanged. Otherwise, whatever the
    current status is, the order is stored and returned with status
    [new_status.lower()] and its other fields as they were, and no other
    order and not the counter changes. *)
Theorem update_order_status_cases
  (om : OrderManager.t) (order_id : Z) (new_status : string) :
  (OrderManager.find_order order_id om = None ->
   OrderManager.update_order_status order_id new_status om
   = (Raise (Exn NotFoundError "Order not found"), om)) /\
  (forall order,
     OrderManager.find_order order_id om = Some order ->
     str_in (lower new_status) Order.VALID_STATUSES = false ->
     exists msg,
       OrderManager.update_order_status order_id new_status om
       = (Raise (Exn ValidationError msg), om)) /\
  (forall order,
     OrderManager.find_order order_id om = Some order ->
     str_in (lower new_status) Order.VALID_STATUSES = true ->
     exists om',
       let order' :=
         Order.mk (Order.order_id order) (Order.user_username order)
           (Order.items order) (lower new_status) in
       OrderManager.update_order_status order_id new_status om = (Ok order', om') /\
       OrderManager.find_order order_id om' = Some order' /\
       OrderManager.next_order_id om' = OrderManager.next_order_id om /\
       forall other, other <> order_id ->
         OrderManager.find_order other om' = OrderManager.find_order other om).
Proof.
  unfold OrderManager.update_order_status, Order.update_status.
  split; [|split].
  - intros ->. reflexivity.
  - intros order -> ->. simpl. eexists. reflexivity.
  - intros order -> ->. simpl. eexists. split; [reflexivity|].
    unfold OrderManager.find_order. simpl. split; [apply lookup_insert_eq|].
    split; [reflexivity|].
    intros other Hne. apply lookup_insert_ne. congruence.
Qed.

Lemma update_order_status_cases_witness :
  exists om',
    let order' := Order.mk 1 "bob" [OrderItem.mk 2 3 0x1.3fae147ae147bp+3] "shipped" in
    OrderManager.update_order_status 1 "Shipped" one_order = (Ok order', om') /\
    OrderManager.find_order 1 om' = Some order' /\
    OrderManager.next_order_id om' = OrderManager.next_order_id one_order /\
    forall other, other <> 1 ->
      OrderManager.find_order other om' = OrderManager.find_order other one_order.
Proof.
  apply (proj2 (proj2 (update_order_status_cases one_order 1 "Shipped"))
           (Order.mk 1 "bob" [OrderItem.mk 2 3 0x1.3fae147ae147bp+3] "pending")).
  - vm_compute. reflexivity.
  - vm_compute. reflexivity.
Defined.

(** ** Login *)

(** A system with the active user alice and the deactivated user bob. *)
Definition two_users : System.t :=
  let um1 :=
    snd (UserManager.add_user "alice" "Secret1!" "customer" "771234567" "f" true no_users) in
  let um2 :=
    snd (UserManager.add_user "bob" "Passw0rd#" "employee" "731234567" "m" false um1) in
  System.mk um2 sample_catalog no_orders None.

(** C8 as stated fails: the three failures are AuthenticationErrors with
    three different messages, which name the cause. *)
Lemma login_counterexample :
  fst (System.login "carol" "Secret1!" two_users)
  = Raise (Exn AuthenticationError "Username not found") /\
  fst (System.login "bob" "Passw0rd#" two_users)
  = Raise (Exn AuthenticationError "User account is not active") /\
  fst (System.login "alice" "wrong" two_users)
  = Raise (Exn AuthenticationError "Incorrect password") /\
  String.eqb "Username not found" "User account is not active" = false /\
  String.eqb "Username not found" "Incorrect password" = false /\
  String.eqb "User account is not active" "Incorrect password" = false.
Proof. repeat split; vm_compute; reflexivity. Qed.

(** C8, amended. [login] returns the user, and records it as the current
    user, when the username is known, the account is active and the password
    is the stored one. Each other case raises an AuthenticationError and
    leaves the system as it was; its message tells the cause: "Username not
    found", "User account is not active" or "Incorrect password". *)
Theorem login_cases (sys : System.t) (username password : string) :
  (UserManager.find_user username (System.user_manager sys) = None ->
   System.login username password sys
   = (Raise (Exn AuthenticationError "Username not found"), sys)) /\
  (forall user,
     UserManager.find_user username (System.user_manager sys) = Some user ->
     User.isactive user = false ->
     System.login username password sys
     = (Raise (Exn AuthenticationError "User account is not active"), sys)) /\
  (forall user,
     UserManager.find_user username (System.user_manager sys) = Some user ->
     User.isactive user = true ->
     User.password user <> password ->
     System.login username password sys
     = (Raise (Exn AuthenticationError "Incorrect password"), sys)) /\
  (forall user,
     UserManager.find_user username (System.user_manager sys) = Some user ->
     User.isactive user = true ->
     User.password user = password ->
     System.login username password sys
     = (Ok user,
        System.mk (System.user_manager sys) (System.product_manager sys)
          (System.order_manager sys) (Some user))).
Proof.
  unfold System.login. repeat split.
  - intros ->. reflexivity.
  - intros user -> ->. reflexivity.
  - intros user -> -> Hne. simpl.
    destruct (String.eqb_spec (User.password user) password); [contradiction|].
    reflexivity.
  - intros user -> -> <-. simpl. rewrite String.eqb_refl. reflexivity.
Qed.

Lemma login_cases_witness :
  System.login "alice" "Secret1!" two_users
  = (Ok (User.mk "alice" "Secret1!" "customer" "771234567" "f" true),
     System.mk (System.user_manager two_users) (System.product_manager two_users)
       (System.order_manager two_users)
       (Some (User.mk "alice" "Secret1!" "customer" "771234567" "f" true))).
Proof.
  apply (proj2 (proj2 (proj2 (login_cases two_users "alice" "Secret1!")))
           (User.mk "alice" "Secret1!" "customer" "771234567" "f" true)).
  - vm_compute. reflexivity.
  - reflexivity.
  - reflexivity.
Defined.

(** ** Passwords *)

(** The rule as the specification words it: non-empty, at least 8 characters,
    a digit, an alphabetic character, and a character that is neither
    alphanumeric nor whitespace. *)
Definition spec_password_ok (s : string) : bool :=
  negb (String.eqb s "") && (8 <=? len s)
  && search_class is_digit s
  && search_class is_alpha s
  && search_class (fun c => negb (is_alnum c) && negb (is_space c)) s.

(** C5 as stated fails: the underscore of "abcdefg1_" is neither alphanumeric
    nor whitespace, so the rule of the specification accepts the string, but
    [validate_password] rejects it: the class [[^\w\s]] leaves the underscore
    out. *)
Lemma validate_password_counterexample :
  spec_password_ok "abcdefg1_" = true /\
  Validators.validate_password (VStr "abcdefg1_")
  = Raise (Exn ValidationError "Password must include at least one special character").
Proof. split; vm_compute; reflexivity. Qed.

Lemma code_underscore (c : ascii) : code c = 95 <-> c = "_"%char.
Proof.
  unfold code. split.
  - intros H. rewrite <- (ascii_N_embedding c).
    replace (N_of_ascii c) with 95%N by lia. reflexivity.
  - intros ->. reflexivity.
Qed.

Lemma search_class_spec (cls : ascii -> bool) (s : string) :
  search_class cls s = true <-> exists c, In c (chars s) /\ cls c = true.
Proof. unfold search_class. apply existsb_exists. Qed.

Lemma special_char_spec (c : ascii) :
  negb (is_word c || is_space c) = true <->
  is_alnum c = false /\ is_space c = false /\ c <> "_"%char.
Proof.
  unfold is_word. rewrite <- code_underscore.
  destruct (is_alnum c), (is_space c), (Z.eqb_spec (code c) 95); simpl;
    intuition (try discriminate; try congruence).
Qed.

(** The conditions under which [validate_password] returns True. *)
Definition password_accepted (s : string) : Prop :=
  8 <= len s /\
  (exists c, In c (chars s) /\ is_decimal c = true) /\
  (exists c, In c (chars s) /\ is_ascii_letter c = true) /\
  (exists c, In c (chars s) /\
     is_alnum c = false /\ is_space c = false /\ c <> "_"%char).

(** C5, amended. [validate_password] accepts a string if and only if it has
    at least 8 characters (so is not empty), contains a decimal digit, a
    letter of A-Z or a-z, and a character that is neither alphanumeric, nor
    whitespace, nor the underscore; every other string is refused with a
    ValidationError. A string whose characters are all alphanumeric,
    whitespace or underscores is therefore refused. *)
Theorem validate_password_accepts (s : string) :
  (Validators.validate_password (VStr s) = Ok true <-> password_accepted s) /\
  (Validators.validate_password (VStr s) = Ok true \/
   raises (Validators.validate_password (VStr s)) ValidationError) /\
  (Forall (fun c => is_alnum c = true \/ is_space c = true \/ c = "_"%char) (chars s) ->
   raises (Validators.validate_password (VStr s)) ValidationError).
Proof.
  assert (Hiff : Validators.validate_password (VStr s) = Ok true <-> password_accepted s).
  { unfold Validators.validate_password, Validators.validate_password_min, password_accepted.
    simpl truthy. rewrite negb_involutive.
    destruct (String.eqb_spec s "") as [->|Hne].
    { split; [discriminate|]. intros [Hlen _]. change (len "") with 0 in Hlen. lia. }
    destruct (Z.ltb_spec (len s) 8) as [Hlt|Hge].
    { split; [discriminate|]. intros [Hlen _]. lia. }
    rewrite <- !search_class_spec.
    destruct (search_class is_decimal s); simpl.
    2:{ split; [discriminate|]. intros (_ & H & _). discriminate. }
    destruct (search_class is_ascii_letter s); simpl.
    2:{ split; [discriminate|]. intros (_ & _ & H & _). discriminate. }
    destruct (search_class (fun c => negb (is_word c || is_space c)) s) eqn:Hsp; simpl.
    - split; [|reflexivity]. intros _. repeat split; try assumption.
      apply search_class_spec in Hsp as (c & Hin & Hc).
      exists c. split; [exact Hin|]. apply special_char_spec. exact Hc.
    - split; [discriminate|]. intros (_ & _ & _ & c & Hin & Hc).
      apply special_char_spec in Hc.
      assert (search_class (fun c => negb (is_word c || is_space c)) s = true)
        by (apply search_class_spec; eauto).
      congruence. }
  assert (Hcases : Validators.validate_password (VStr s) = Ok true \/
                   raises (Validators.validate_password (VStr s)) ValidationError).
  { unfold Validators.validate_password, Validators.validate_password_min, raises, raise.
    destruct (negb (truthy (VStr s))); [right; eauto|].
    destruct (len s <? 8); [right; eauto|].
    destruct (negb (search_class is_decimal s)); [right; eauto|].
    destruct (negb (search_class is_ascii_letter s)); [right; eauto|].
    destruct (negb (search_class _ s)); [right; eauto|].
    left. reflexivity. }
  split; [exact Hiff|]. split; [exact Hcases|].
  intros Hall. destruct Hcases as [Hok|Hraise]; [|exact Hraise].
  apply Hiff in Hok as (_ & _ & _ & c & Hin & Halnum & Hspace & Hund).
  rewrite List.Forall_forall in Hall. apply Hall in Hin.
  destruct Hin as [H|[H|H]]; congruence.
Qed.

Lemma validate_password_accepts_witness :
  Validators.validate_password (VStr "Secret1!") = Ok true /\
  raises (Validators.validate_password (VStr "abcdefg1_")) ValidationError.
Proof.
  split.
  - apply (proj2 (proj1 (validate_password_accepts "Secret1!"))).
    unfold password_accepted. split; [vm_compute; discriminate|].
    split; [exists "1"%char; split; [vm_compute; tauto | reflexivity]|].
    split; [exists "S"%char; split; [vm_compute; tauto | reflexivity]|].
    exists "!"%char. split; [vm_compute; tauto|].
    split; [reflexivity|]. split; [reflexivity|]. discriminate.
  - apply (proj2 (proj2 (validate_password_accepts "abcdefg1_"))).
    repeat constructor; vm_compute; tauto.
Defined.

(** ** Serialization *)

(** The objects the constructors and [update] methods can leave behind: the
    fields pass their validators, and [usertype] is stored in lower case. *)
Definition user_valid (u : User.t) : Prop :=
  Validators.validate_username (VStr (User.username u)) [] = Ok true /\
  Validators.validate_password (VStr (User.password u)) = Ok true /\
  str_in (User.usertype u) ["admin"; "employee"; "customer"] = true /\
  Validators.validate_phonenumber (VStr (User.phonenumber u)) = Ok true /\
  Validators.validate_gender (VStr (User.gender u)) = Ok true.

Definition product_valid (p : Product.t) : Prop :=
  Validators.validate_product_name (VStr (Product.name p)) = Ok true /\
  PrimFloat.ltb (Product.price p) 0 = false.

Definition order_item_valid (it : OrderItem.t) : Prop :=
  0 < OrderItem.quantity it /\
  PrimFloat.ltb (OrderItem.price_at_order it) 0 = false.

Definition order_valid (o : Order.t) : Prop :=
  Forall order_item_valid (Order.items o).

Lemma usertype_stored (ut : string) :
  str_in ut ["admin"; "employee"; "customer"] = true ->
  Validators.validate_usertype (VStr ut) = Ok true /\ lower ut = ut.
Proof.
  intros H. apply str_in_spec in H. simpl in H.
  destruct H as [<-|[<-|[<-|[]]]]; split; reflexivity.
Qed.

(** What [User.__init__] builds is valid. *)
Lemma user_new_valid (username password usertype phonenumber gender isactive : pyval)
  (u : User.t) :
  User.new username password usertype phonenumber gender isactive = Ok u ->
  user_valid u.
Proof.
  unfold User.new. intros H.
  apply bind_ok in H as (b1 & H1 & H).
  apply bind_ok in H as (b2 & H2 & H).
  apply bind_ok in H as (b3 & H3 & H).
  apply bind_ok in H as (b4 & H4 & H).
  apply bind_ok in H as (b5 & H5 & H).
  destruct username as [| | | |un| |]; try discriminate.
  destruct password as [| | | |pw| |]; try discriminate.
  destruct usertype as [| | | |ut| |]; try discriminate.
  destruct phonenumber as [| | | |ph| |]; try discriminate.
  destruct gender as [| | | |g| |]; try discriminate.
  destruct isactive as [|a| | | | |]; try discriminate.
  simpl in H. injection H as <-. unfold user_valid. simpl.
  repeat split.
  - revert H1. unfold Validators.validate_username.
    repeat match goal with |- context [if ?c then _ else _] => destruct c end;
      unfold raise; congruence.
  - revert H2. unfold Validators.validate_password, Validators.validate_password_min.
    repeat match goal with |- context [if ?c then _ else _] => destruct c end;
      unfold raise; congruence.
  - unfold Validators.validate_usertype in H3.
    destruct (negb (truthy (VStr ut))); [discriminate|].
    destruct (str_in (lower ut) _) eqn:Hin; [exact Hin|discriminate].
  - revert H4. unfold Validators.validate_phonenumber.
    repeat match goal with |- context [if ?c then _ else _] => destruct c end;
      unfold raise; congruence.
  - revert H5. unfold Validators.validate_gender.
    repeat match goal with |- context [if ?c then _ else _] => destruct c end;
      unfold raise; congruence.
Qed.

Lemma user_roundtrip (u : User.t) :
  user_valid u -> User.from_dict (User.to_dict u) = Ok u.
Proof.
  intros (Hn & Hp & Hut & Hph & Hg).
  apply usertype_stored in Hut as [Hut Hlow].
  unfold User.from_dict, User.to_dict. cbn [getitem dict_get String.eqb Ascii.eqb Bool.eqb bind].
  unfold User.new. rewrite Hn, Hp, Hut, Hph, Hg. cbn [bind as_str as_bool].
  rewrite Hlow. destruct u; reflexivity.
Qed.

Lemma product_roundtrip (p : Product.t) :
  product_valid p -> Product.from_dict (Product.to_dict p) = Ok p.
Proof.
  intros [Hn Hp].
  unfold Product.from_dict, Product.to_dict.
  cbn [getitem dict_get String.eqb Ascii.eqb Bool.eqb bind].
  unfold Product.new. rewrite Hn.
  unfold Validators.validate_price. cbn [py_float Validators.validate_product_id bind].
  rewrite Hp. cbn [bind as_int as_str as_bool]. destruct p; reflexivity.
Qed.

Lemma order_item_roundtrip (it : OrderItem.t) :
  order_item_valid it -> OrderItem.from_dict (OrderItem.to_dict it) = Ok it.
Proof.
  intros [Hq Hp].
  unfold OrderItem.from_dict, OrderItem.to_dict.
  cbn [getitem dict_get String.eqb Ascii.eqb Bool.eqb bind].
  unfold OrderItem.new, Validators.validate_quantity, Validators.validate_price.
  cbn [py_float]. rewrite Hp.
  destruct (Z.leb_spec (OrderItem.quantity it) 0) as [Hle|_]; [lia|].
  cbn [bind as_int]. destruct it; reflexivity.
Qed.

Lemma load_items_roundtrip (l : list OrderItem.t) :
  Forall order_item_valid l ->
  forall oid uname acc st,
    Order.load_items (map OrderItem.to_dict l) (Order.mk oid uname acc st)
    = Ok (Order.mk oid uname (acc ++ l) st).
Proof.
  induction 1 as [|it l Hit _ IH]; intros oid uname acc st; simpl.
  - rewrite app_nil_r. reflexivity.
  - rewrite (order_item_roundtrip it Hit). simpl.
    unfold Order.add_item. simpl. rewrite IH, <- app_assoc. reflexivity.
Qed.

Lemma order_roundtrip (o : Order.t) :
  order_valid o -> Order.from_dict (Order.to_dict o) = Ok o.
Proof.
  intros Hv. unfold Order.from_dict, Order.to_dict.
  cbn [getitem dict_get String.eqb Ascii.eqb Bool.eqb bind as_int as_str iterate
       Order.new Order.order_id Order.user_username Order.items].
  rewrite (load_items_roundtrip _ Hv). destruct o; reflexivity.
Qed.

(** C4. Serialization round-trips: for every valid User, Product, OrderItem
    and Order, [from_dict(to_dict(x))] succeeds and is [x], field for field;
    for an Order that includes the items in their order and the status,
    whatever it is. *)
Theorem from_dict_to_dict :
  (forall u : User.t, user_valid u -> User.from_dict (User.to_dict u) = Ok u) /\
  (forall p : Product.t, product_valid p -> Product.from_dict (Product.to_dict p) = Ok p) /\
  (forall it : OrderItem.t,
     order_item_valid it -> OrderItem.from_dict (OrderItem.to_dict it) = Ok it) /\
  (forall o : Order.t, order_valid o -> Order.from_dict (Order.to_dict o) = Ok o).
Proof.
  repeat split.
  - exact user_roundtrip.
  - exact product_roundtrip.
  - exact order_item_roundtrip.
  - exact order_roundtrip.
Qed.

Lemma from_dict_to_dict_witness :
  User.from_dict
    (User.to_dict (User.mk "alice" "Secret1!" "customer" "771234567" "f" true))
  = Ok (User.mk "alice" "Secret1!" "customer" "771234567" "f" true) /\
  Product.from_dict (Product.to_dict (Product.mk 1 "Pen" 1.5 true))
  = Ok (Product.mk 1 "Pen" 1.5 true) /\
  OrderItem.from_dict (OrderItem.to_dict (OrderItem.mk 1 2 1.5))
  = Ok (OrderItem.mk 1 2 1.5) /\
  Order.from_dict (Order.to_dict sample_order) = Ok sample_order.
Proof.
  split; [|split; [|split]].
  - apply (proj1 from_dict_to_dict). repeat split; vm_compute; reflexivity.
  - apply (proj1 (proj2 from_dict_to_dict)). split; vm_compute; reflexivity.
  - apply (proj1 (proj2 (proj2 from_dict_to_dict))). split; vm_compute; reflexivity.
  - apply (proj2 (proj2 (proj2 from_dict_to_dict))).
    repeat constructor; vm_compute; reflexivity.
Defined.

(** ** Product ids *)

(** What happens to a catalog: a call on the product manager, or a restart
    of the program, which builds a new manager from the file. A restart that
    raises ends the run. *)
Inductive store_event :=
  | Call (op : catalog_op)
  | Restart.

(** The ids that the successful [add_product] calls of a run return. *)
Fixpoint ids_assigned (events : list store_event) (pm : ProductManager.t) : list Z :=
  match events with
  | [] => []
  | Call op :: events' =>
      match catalog_step op pm with
      | (Some pid, pm') => pid :: ids_assigned events' pm'
      | (None, pm') => ids_assigned events' pm'
      end
  | Restart :: events' =>
      match ProductManager.init (ProductManager.storage pm) with
      | Ok pm' => ids_assigned events' pm'
      | Raise _ => []
      end
  end.

Definition fresh_catalog : ProductManager.t := ProductManager.mk ∅ 1 empty_disk.

(** C6 as stated fails: [next_id] is not saved, and a load sets it to one
    more than the largest id in the file. After the product with the largest
    id is deleted for good, a restart makes the next [add_product] return
    that id again. *)
Lemma product_id_reuse_counterexample :
  ids_assigned
    [Call (AddProduct "Pen" (VFloat 1.5));
     Call (AddProduct "Book" (VFloat 0x1.3fae147ae147bp+3));
     Call (DeleteProduct 2 false);
     Restart;
     Call (AddProduct "Ink" (VFloat 3))]
    fresh_catalog
  = [1; 2; 2].
Proof. vm_compute. reflexivity. Qed.

Lemma product_new_id (pid : Z) (name price is_active : pyval) (p : Product.t) :
  Product.new (VInt pid) name price is_active = Ok p -> Product.id p = pid.
Proof.
  unfold Product.new. intros H.
  apply bind_ok in H as (b1 & _ & H).
  apply bind_ok in H as (b2 & _ & H).
  apply bind_ok in H as (b3 & _ & H).
  simpl in H.
  apply bind_ok in H as (n & _ & H).
  apply bind_ok in H as (f & _ & H).
  apply bind_ok in H as (a & _ & H).
  injection H as <-. reflexivity.
Qed.

(** A call either adds a product, which gets the id [next_id] and moves the
    counter on by one, or leaves the counter alone. *)
Lemma catalog_step_next_id (op : catalog_op) (pm : ProductManager.t) :
  match catalog_step op pm with
  | (Some pid, pm') =>
      pid = ProductManager.next_id pm /\
      ProductManager.next_id pm' = ProductManager.next_id pm + 1
  | (None, pm') => ProductManager.next_id pm' = ProductManager.next_id pm
  end.
Proof.
  destruct op as [name price|pid kwargs|pid allow_archive]; simpl.
  - unfold ProductManager.add_product.
    match goal with |- context [match ?r with Ok _ => _ | Raise _ => _ end] =>
      destruct r as [product|e] eqn:Hmade end; simpl; [|reflexivity].
    split; [|reflexivity].
    apply bind_ok in Hmade as (b1 & _ & Hmade).
    apply bind_ok in Hmade as (b2 & _ & Hmade).
    apply bind_ok in Hmade as (f & _ & Hmade).
    eapply product_new_id. exact Hmade.
  - unfold ProductManager.update_product.
    destruct (ProductManager.products pm !! pid) as [prod|]; [|reflexivity].
    destruct (Product.update kwargs prod) as [[u|e] prod']; reflexivity.
  - unfold ProductManager.delete_product.
    destruct (ProductManager.products pm !! pid) as [p|]; [|reflexivity].
    destruct allow_archive; reflexivity.
Qed.

Lemma ids_assigned_increasing (ops : list catalog_op) :
  forall pm : ProductManager.t,
    StronglySorted Z.lt (ids_assigned (map Call ops) pm) /\
    Forall (fun pid => ProductManager.next_id pm <= pid) (ids_assigned (map Call ops) pm).
Proof.
  induction ops as [|op ops IH]; intros pm; simpl.
  - split; constructor.
  - pose proof (catalog_step_next_id op pm) as Hstep.
    destruct (catalog_step op pm) as [[pid|] pm'].
    + destruct Hstep as [-> Hnext]. destruct (IH pm') as [Hsorted Hge].
      rewrite Hnext in Hge. split.
      * constructor; [exact Hsorted|].
        eapply List.Forall_impl; [|exact Hge]. simpl. intros; lia.
      * constructor; [lia|].
        eapply List.Forall_impl; [|exact Hge]. simpl. intros; lia.
    + rewrite <- Hstep. apply IH.
Qed.

(** Every id in the store is below the counter. *)
Definition keys_below_next_id (pm : ProductManager.t) : Prop :=
  forall pid, is_Some (ProductManager.find_product pid pm) -> pid < ProductManager.next_id pm.

Lemma load_records_keys_below (data : list pyval) :
  forall pm pm' : ProductManager.t,
    keys_below_next_id pm ->
    ProductManager.load_records data pm = (Ok tt, pm') ->
    keys_below_next_id pm'.
Proof.
  induction data as [|product_data data IH]; intros pm pm' Hpm; simpl.
  - intros [= <-]. exact Hpm.
  - destruct (Product.from_dict product_data) as [product|e]; [|discriminate].
    apply IH. intros pid. unfold ProductManager.find_product.
    destruct (Z.leb_spec (ProductManager.next_id pm) (Product.id product)) as [Hle|Hgt];
      simpl; intros Hsome;
      (destruct (decide (pid = Product.id product)) as [->|Hne];
       [lia | rewrite lookup_insert_ne in Hsome by congruence;
              apply Hpm in Hsome; lia]).
Qed.

Lemma init_keys_below (d : disk) (pm : ProductManager.t) :
  ProductManager.init d = Ok pm -> keys_below_next_id pm.
Proof.
  unfold ProductManager.init, ProductManager.load_products. simpl.
  assert (Hempty : forall st, keys_below_next_id (ProductManager.mk ∅ 1 st)).
  { intros st pid [p Hp]. unfold ProductManager.find_product in Hp. simpl in Hp.
    rewrite lookup_empty in Hp. discriminate. }
  destruct (content d) as [| |data].
  - intros [= <-]. apply Hempty.
  - intros [= <-]. apply Hempty.
  - destruct (ProductManager.load_records data (ProductManager.mk ∅ 1 d))
      as [[[]|e] pm'] eqn:Hload; [|discriminate].
    intros [= <-]. eapply load_records_keys_below; [apply Hempty | exact Hload].
Qed.

(** C6, amended. While a product manager lives, that is between two loads,
    the ids that [add_product] returns over any sequence of [add_product],
    [update_product] and [delete_product] calls, archiving or not, grow
    strictly, from the counter the manager started with: none is returned
    twice. A load leaves the counter above every id it has read from the
    file, so the ids of the products still stored are not assigned again
    after a restart either; the counter itself is not saved. *)
Theorem product_ids_strictly_increasing
  (ops : list catalog_op) (pm : ProductManager.t) :
  StronglySorted Z.lt (ids_assigned (map Call ops) pm) /\
  Forall (fun pid => ProductManager.next_id pm <= pid) (ids_assigned (map Call ops) pm) /\
  NoDup (ids_assigned (map Call ops) pm) /\
  forall (d : disk) (pm0 : ProductManager.t),
    ProductManager.init d = Ok pm0 ->
    forall pid, is_Some (ProductManager.find_product pid pm0) ->
      pid < ProductManager.next_id pm0.
Proof.
  destruct (ids_assigned_increasing ops pm) as [Hsorted Hge].
  split; [exact Hsorted|]. split; [exact Hge|]. split.
  - induction Hsorted as [|pid ids _ IH Hlt]; constructor.
    + intros Hin. apply list_elem_of_In in Hin.
      rewrite List.Forall_forall in Hlt. apply Hlt in Hin. lia.
    + apply IH. inversion Hge; assumption.
  - intros d pm0 Hinit. exact (init_keys_below d pm0 Hinit).
Qed.

Lemma product_ids_strictly_increasing_witness :
  2 < ProductManager.next_id sample_catalog.
Proof.
  apply (proj2 (proj2 (proj2
           (product_ids_strictly_increasing
              [AddProduct "Pen" (VFloat 1.5); DeleteProduct 1 false] fresh_catalog)))
           (ProductManager.storage sample_catalog) sample_catalog).
  - vm_compute. reflexivity.
  - eexists. vm_compute. reflexivity.
Defined.

(** * The rest of the managers *)

(** ** User.update, UserManager.update_user, roles and start-up *)

(** A statement sequence on a mutable object: the next statement runs on the
    object the previous one left, unless that one raised. *)
Definition and_then {S} (r : result unit * S) (k : S -> result unit * S)
  : result unit * S :=
  match r with
  | (Ok _, s) => k s
  | (Raise e, s) => (Raise e, s)
  end.

(** One [if 'k' in kwargs and kwargs['k'] is not None:] block of an [update]
    method: validate the value, then assign it. *)
Definition update_field {S X} (kwargs : list (string * pyval)) (k : string)
  (validate : pyval -> result X) (assign : X -> S -> S) (self : S)
  : result unit * S :=
  match Product.supplied kwargs k with
  | None => (Ok tt, self)
  | Some v =>
      match validate v with
      | Ok x => (Ok tt, assign x self)
      | Raise e => (Raise e, self)
      end
  end.

Definition set_username (x : string) (u : User.t) : User.t :=
  User.mk x (User.password u) (User.usertype u) (User.phonenumber u) (User.gender u)
    (User.isactive u).
Definition set_password (x : string) (u : User.t) : User.t :=
  User.mk (User.username u) x (User.usertype u) (User.phonenumber u) (User.gender u)
    (User.isactive u).
Definition set_usertype (x : string) (u : User.t) : User.t :=
  User.mk (User.username u) (User.password u) x (User.phonenumber u) (User.gender u)
    (User.isactive u).
Definition set_phonenumber (x : string) (u : User.t) : User.t :=
  User.mk (User.username u) (User.password u) (User.usertype u) x (User.gender u)
    (User.isactive u).
Definition set_gender (x : string) (u : User.t) : User.t :=
  User.mk (User.username u) (User.password u) (User.usertype u) (User.phonenumber u) x
    (User.isactive u).
Definition set_isactive (x : bool) (u : User.t) : User.t :=
  User.mk (User.username u) (User.password u) (User.usertype u) (User.phonenumber u)
    (User.gender u) x.

(** [User.update] with its keyword arguments as a dict. The username block
    has no test for None; the other blocks skip a None. *)
Definition User_update (kwargs : list (string * pyval)) (self : User.t)
  : result unit * User.t :=
  let username_block (self : User.t) : result unit * User.t :=
    match dict_get "username" kwargs with
    | Raise _ => (Ok tt, self)
    | Ok v =>
        match (Validators.validate_username v [] ;;; as_str v) with
        | Ok x => (Ok tt, set_username x self)
        | Raise e => (Raise e, self)
        end
    end in
  and_then (and_then (and_then (and_then (and_then
    (username_block self)
    (update_field kwargs "password"
       (fun v => Validators.validate_password v ;;; as_str v) set_password))
    (update_field kwargs "phonenumber"
       (fun v => Validators.validate_phonenumber v ;;; as_str v) set_phonenumber))
    (update_field kwargs "gender"
       (fun v => Validators.validate_gender v ;;; as_str v) set_gender))
    (update_field kwargs "isactive" (fun v => Ok (truthy v)) set_isactive))
    (update_field kwargs "usertype"
       (fun v => Validators.validate_usertype v ;;; s <- as_str v ;; Ok (lower s))
       set_usertype).

(** [kwargs['username'] != username] *)
Definition differs_from (v : pyval) (username : string) : bool :=
  match v with
  | VStr s => negb (String.eqb s username)
  | _ => true
  end.

(** [UserManager.update_user]. [user] is the object held by the dict, so what
    [User.update] assigned before raising stays in the store, unsaved; so
    does a change of key made before it. *)
Definition UserManager_update_user (username : string) (kwargs : list (string * pyval))
  (self : UserManager.t) : result User.t * UserManager.t :=
  match UserManager.users self !! username with
  | None => (raise NotFoundError "User not found", self)
  | Some user =>
      let rekeyed : result (string * User.t * gmap string User.t) :=
        match dict_get "username" kwargs with
        | Raise _ => Ok (username, user, UserManager.users self)
        | Ok v =>
            if differs_from v username then
              Validators.validate_username v (keys (UserManager.users self)) ;;;
              new_username <- as_str v ;;
              let user' := set_username new_username user in
              Ok (new_username, user',
                  <[new_username := user']> (delete username (UserManager.users self)))
            else Ok (username, user, UserManager.users self)
        end in
      match rekeyed with
      | Raise e => (Raise e, self)
      | Ok (key, user1, users1) =>
          match User_update kwargs user1 with
          | (Raise e, user2) =>
              (Raise e, UserManager.mk (<[key := user2]> users1) (UserManager.storage self))
          | (Ok _, user2) =>
              (Ok user2,
               UserManager.save_users
                 (UserManager.mk (<[key := user2]> users1) (UserManager.storage self)))
          end
      end
  end.

Definition System_is_logged_in (self : System.t) : bool :=
  match System.current_user self with Some _ => true | None => false end.

(** [System.require_role]: returns None, or raises AuthorizationError. *)
Definition System_require_role (roles : list string) (self : System.t) : result unit :=
  match System.current_user self with
  | None => raise AuthorizationError "You must be logged in"
  | Some user =>
      if negb (str_in (User.usertype user) (map lower roles)) then
        raise AuthorizationError "You don't have the required role"
      else Ok tt
  end.

(** [System.__init__], for the three files found on the disks: the managers
    are loaded, then the default admin is added, a ValidationError of
    [add_user] being passed over. *)
Definition System_init (users_disk products_disk orders_disk : disk) : result System.t :=
  um <- UserManager.init users_disk ;;
  pm <- ProductManager.init products_disk ;;
  om <- OrderManager.init orders_disk ;;
  match UserManager.add_user "admin" "Adm!n1234" "admin" "771234567" "male" true um with
  | (Ok _, um') => Ok (System.mk um' pm om None)
  | (Raise (Exn ValidationError _), um') => Ok (System.mk um' pm om None)
  | (Raise e, _) => Raise e
  end.

(** ** When create_order succeeds *)

(** A pair that the loop of [create_order] accepts: an active product of the
    catalog, whose price is not below zero, and a positive integer quantity. *)
Definition item_ok (pm : ProductManager.t) (it : Z * pyval) : Prop :=
  exists product,
    ProductManager.find_product (fst it) pm = Some product /\
    Product.is_active product = true /\
    Validators.validate_quantity (snd it) = Ok true /\
    PrimFloat.ltb (Product.price product) 0 = false.

(** The line an accepted pair becomes. *)
Definition line_of (pm : ProductManager.t) (it : Z * pyval) (line : OrderItem.t) : Prop :=
  exists product,
    ProductManager.find_product (fst it) pm = Some product /\
    as_int (snd it) = Ok (OrderItem.quantity line) /\
    line = OrderItem.mk (fst it) (OrderItem.quantity line) (Product.price product).

Lemma validate_quantity_ok (qty : pyval) (b : bool) :
  Validators.validate_quantity qty = Ok b ->
  b = true /\ exists n, as_int qty = Ok n /\ 0 < n.
Proof.
  unfold Validators.validate_quantity.
  destruct qty as [|[|]|z| | | |]; try discriminate.
  - intros [= <-]. split; [reflexivity|]. exists 1. split; [reflexivity | lia].
  - simpl. destruct (Z.leb_spec z 0); [discriminate|].
    intros [= <-]. split; [reflexivity|]. exists z. split; [reflexivity | lia].
Qed.

Lemma order_item_new_iff (pid : Z) (qty : pyval) (f : float) (item : OrderItem.t) :
  OrderItem.new (VInt pid) qty (VFloat f) = Ok item <->
  Validators.validate_quantity qty = Ok true /\ PrimFloat.ltb f 0 = false /\
  exists n, as_int qty = Ok n /\ item = OrderItem.mk pid n f.
Proof.
  unfold OrderItem.new, Validators.validate_price. simpl py_float. split.
  - intros H. apply bind_ok in H as (b & Hq & H).
    apply validate_quantity_ok in Hq as Hb. destruct Hb as [-> (n & Hn & _)].
    destruct (PrimFloat.ltb f 0); [discriminate|]. simpl in H.
    rewrite Hn in H. simpl in H. injection H as <-. eauto 6.
  - intros (Hq & Hf & n & Hn & ->). rewrite Hq, Hf. simpl. rewrite Hn. reflexivity.
Qed.

Lemma add_items_cons_iff pm pid qty items order order' :
  OrderManager.add_items pm ((pid, qty) :: items) order = Ok order' <->
  exists product n,
    ProductManager.find_product pid pm = Some product /\
    Product.is_active product = true /\
    Validators.validate_quantity qty = Ok true /\
    PrimFloat.ltb (Product.price product) 0 = false /\
    as_int qty = Ok n /\
    OrderManager.add_items pm items
      (Order.add_item (OrderItem.mk pid n (Product.price product)) order) = Ok order'.
Proof.
  simpl. split.
  - intros H.
    destruct (ProductManager.find_product pid pm) as [product|]; [|discriminate].
    destruct (Product.is_active product) eqn:Hact; simpl in H; [|discriminate].
    apply bind_ok in H as (b & Hq & H).
    apply bind_ok in H as (item & Hnew & H).
    apply order_item_new_iff in Hnew as (Hq' & Hf & n & Hn & ->).
    exists product, n. auto 10.
  - intros (product & n & -> & -> & Hq & Hf & Hn & H). simpl. rewrite Hq. simpl.
    assert (Hnew : OrderItem.new (VInt pid) qty (VFloat (Product.price product))
                   = Ok (OrderItem.mk pid n (Product.price product)))
      by (apply order_item_new_iff; eauto 6).
    rewrite Hnew. simpl. exact H.
Qed.

Lemma add_items_ok_iff pm (items : list (Z * pyval)) :
  forall order,
    (exists order', OrderManager.add_items pm items order = Ok order') <->
    Forall (item_ok pm) items.
Proof.
  induction items as [|[pid qty] items IH]; intros order.
  - split; [constructor | intros _; eexists; reflexivity].
  - split.
    + intros [order' H].
      apply add_items_cons_iff in H as (product & n & Hf & Ha & Hq & Hp & Hn & H).
      constructor; [exists product; auto|]. eapply IH. eauto.
    + intros H. inversion H as [|? ? (product & Hf & Ha & Hq & Hp) Htl]; subst.
      simpl in *. destruct (validate_quantity_ok _ _ Hq) as [_ (n & Hn & _)].
      destruct (proj2 (IH (Order.add_item (OrderItem.mk pid n (Product.price product))
                             order)) Htl) as [order' H'].
      exists order'. apply add_items_cons_iff. exists product, n. auto 10.
Qed.

Lemma add_items_lines pm (items : list (Z * pyval)) :
  forall order order',
    OrderManager.add_items pm items order = Ok order' ->
    exists lines,
      Forall2 (line_of pm) items lines /\
      Forall order_item_valid lines /\
      order' = Order.mk (Order.order_id order) (Order.user_username order)
                 (Order.items order ++ lines) (Order.status order).
Proof.
  induction items as [|[pid qty] items IH]; intros order order' H.
  - simpl in H. injection H as <-. exists []. split; [constructor|].
    split; [constructor|]. rewrite app_nil_r. destruct order; reflexivity.
  - apply add_items_cons_iff in H as (product & n & Hf & Ha & Hq & Hp & Hn & H).
    apply IH in H as (lines & Hlines & Hvalid & ->). simpl.
    exists (OrderItem.mk pid n (Product.price product) :: lines). split; [|split].
    + constructor; [|exact Hlines]. exists product. simpl. auto.
    + constructor; [|exact Hvalid]. split; simpl; [|exact Hp].
      destruct (validate_quantity_ok _ _ Hq) as [_ (n' & Hn' & Hpos)]. congruence.
    + rewrite <- app_assoc. reflexivity.
Qed.

(** X1. [create_order] succeeds exactly when every pair names an active
    product of the catalog whose price is not below zero, with a positive
    integer quantity. The order it then returns has the counter's value as
    id, the given username, status "pending" and one line per pair, in the
    order given, with the integer quantity and the product's current price;
    it is stored under its id, the counter moves on by one and no other
    order is touched. *)
Theorem create_order_succeeds_iff
  (pm : ProductManager.t) (username : string) (items : list (Z * pyval))
  (om : OrderManager.t) :
  (is_ok (fst (OrderManager.create_order pm username items om)) = true <->
   Forall (item_ok pm) items) /\
  forall order om',
    OrderManager.create_order pm username items om = (Ok order, om') ->
    Order.order_id order = OrderManager.next_order_id om /\
    Order.user_username order = username /\
    Order.status order = "pending" /\
    Forall2 (line_of pm) items (Order.items order) /\
    Forall order_item_valid (Order.items order) /\
    OrderManager.find_order (Order.order_id order) om' = Some order /\
    OrderManager.next_order_id om' = OrderManager.next_order_id om + 1 /\
    forall other, other <> Order.order_id order ->
      OrderManager.find_order other om' = OrderManager.find_order other om.
Proof.
  unfold OrderManager.create_order. split.
  - rewrite <- (add_items_ok_iff pm items
                  (Order.new (OrderManager.next_order_id om) username)).
    destruct (OrderManager.add_items _ _ _) as [o|e]; simpl; split; eauto.
    + discriminate.
    + intros [o [=]].
  - intros order om'.
    destruct (OrderManager.add_items _ _ _) as [o|e] eqn:Hadd; [|discriminate].
    intros [= -> <-].
    apply add_items_lines in Hadd as (lines & Hlines & Hvalid & ->). simpl.
    repeat split; try assumption.
    + unfold OrderManager.find_order. simpl. apply lookup_insert_eq.
    + intros other Hne. unfold OrderManager.find_order. simpl.
      apply lookup_insert_ne. congruence.
Qed.

Lemma create_order_succeeds_iff_witness :
  is_ok (fst (OrderManager.create_order sample_catalog "bob" [(2, VInt 3)] no_orders)) = true.
Proof.
  apply (proj2 (proj1 (create_order_succeeds_iff sample_catalog "bob" [(2, VInt 3)] no_orders))).
  constructor; [|constructor].
  exists (Product.mk 2 "Book" 0x1.3fae147ae147bp+3 true).
  repeat split; vm_compute; reflexivity.
Defined.

(** ** Invariants of the catalog *)

(** Every product of the store sits under its own id, passes the field rules
    and has an id below the counter. *)
Definition catalog_wf (pm : ProductManager.t) : Prop :=
  forall pid p,
    ProductManager.find_product pid pm = Some p ->
    Product.id p = pid /\ product_valid p /\ pid < ProductManager.next_id pm.

Lemma validate_product_name_true (v : pyval) (b : bool) :
  Validators.validate_product_name v = Ok b -> b = true.
Proof.
  unfold Validators.validate_product_name.
  destruct (negb (truthy v)); [discriminate|].
  destruct v; try discriminate.
  destruct (String.eqb (strip s) ""); [discriminate|]. intros [= <-]. reflexivity.
Qed.

Lemma validate_price_ok (v : pyval) (b : bool) :
  Validators.validate_price v = Ok b ->
  exists f, py_float v = Ok f /\ PrimFloat.ltb f 0 = false.
Proof.
  unfold Validators.validate_price.
  destruct (py_float v) as [f|[[] msg]]; try discriminate.
  destruct (PrimFloat.ltb f 0) eqn:Hf; [discriminate|]. eauto.
Qed.

Lemma product_new_valid (pid name price is_active : pyval) (p : Product.t) :
  Product.new pid name price is_active = Ok p -> product_valid p.
Proof.
  unfold Product.new. intros H.
  apply bind_ok in H as (b1 & _ & H).
  apply bind_ok in H as (b2 & Hname & H).
  apply bind_ok in H as (b3 & Hprice & H).
  apply bind_ok in H as (i & _ & H).
  apply bind_ok in H as (n & Hn & H).
  apply bind_ok in H as (f & Hf & H).
  apply bind_ok in H as (a & _ & H).
  injection H as <-. unfold product_valid. simpl.
  destruct name; try discriminate. injection Hn as ->.
  apply validate_product_name_true in Hname as Hb. subst b2.
  apply validate_price_ok in Hprice as (f' & Hf' & Hlt).
  split; [exact Hname | congruence].
Qed.

Lemma product_from_dict_valid (data : pyval) (p : Product.t) :
  Product.from_dict data = Ok p -> product_valid p.
Proof.
  unfold Product.from_dict. intros H.
  apply bind_ok in H as (i & _ & H).
  apply bind_ok in H as (n & _ & H).
  apply bind_ok in H as (f & _ & H).
  apply bind_ok in H as (a & _ & H).
  eapply product_new_valid. exact H.
Qed.

Lemma validated_name (v : pyval) (b : bool) (n : string) :
  Validators.validate_product_name v = Ok b -> as_str v = Ok n ->
  Validators.validate_product_name (VStr n) = Ok true.
Proof.
  intros Hv Hn. destruct v; try discriminate. injection Hn as ->.
  apply validate_product_name_true in Hv as Hb. subst b. exact Hv.
Qed.

Lemma validated_price (v : pyval) (b : bool) (f : float) :
  Validators.validate_price v = Ok b -> py_float v = Ok f ->
  PrimFloat.ltb f 0 = false.
Proof.
  intros Hv Hf. apply validate_price_ok in Hv as (f' & Hf' & Hlt). congruence.
Qed.

(** [Product.update] keeps the id and the validity, also when it raises. *)
Lemma product_update_keeps (kwargs : list (string * pyval)) (p : Product.t) :
  product_valid p ->
  Product.id (snd (Product.update kwargs p)) = Product.id p /\
  product_valid (snd (Product.update kwargs p)).
Proof.
  intros [Hn Hp]. unfold Product.update, product_valid. cbv zeta.
  repeat match goal with
  | |- context [Product.supplied kwargs ?k] =>
      destruct (Product.supplied kwargs k) eqn:?
  | |- context [Validators.validate_product_name ?v] =>
      lazymatch v with VStr _ => fail | _ =>
        destruct (Validators.validate_product_name v) eqn:?; simpl end
  | |- context [Validators.validate_price ?v] =>
      destruct (Validators.validate_price v) eqn:?; simpl
  | |- context [as_str ?v] => destruct (as_str v) eqn:?; simpl
  | |- context [py_float ?v] => destruct (py_float v) eqn:?; simpl
  end;
  simpl; repeat split; eauto using validated_name, validated_price.
Qed.

Lemma catalog_wf_insert (pm : ProductManager.t) (pid n : Z) (p : Product.t) (st : disk) :
  catalog_wf pm -> Product.id p = pid -> product_valid p ->
  pid < n -> ProductManager.next_id pm <= n ->
  catalog_wf (ProductManager.mk (<[pid := p]> (ProductManager.products pm)) n st).
Proof.
  intros Hwf Hid Hv Hlt Hle k q. unfold ProductManager.find_product. simpl.
  destruct (decide (k = pid)) as [->|Hne].
  - rewrite lookup_insert_eq. intros [= <-]. auto.
  - rewrite lookup_insert_ne by congruence. intros Hq.
    apply Hwf in Hq as (? & ? & ?). split; [assumption|]. split; [assumption|lia].
Qed.

Lemma catalog_wf_storage (pm : ProductManager.t) (st : disk) :
  catalog_wf pm ->
  catalog_wf (ProductManager.mk (ProductManager.products pm) (ProductManager.next_id pm) st).
Proof. intros Hwf k q Hq. apply (Hwf k q Hq). Qed.

Lemma load_records_catalog_wf (data : list pyval) :
  forall pm : ProductManager.t,
    catalog_wf pm -> catalog_wf (snd (ProductManager.load_records data pm)).
Proof.
  induction data as [|product_data data IH]; intros pm Hwf; simpl; [exact Hwf|].
  destruct (Product.from_dict product_data) as [product|e] eqn:Hfrom; [|exact Hwf].
  apply IH.
  destruct (Z.leb_spec (ProductManager.next_id pm) (Product.id product)); simpl.
  - apply catalog_wf_insert; eauto using product_from_dict_valid; lia.
  - apply catalog_wf_insert; eauto using product_from_dict_valid; lia.
Qed.

Lemma catalog_wf_empty (st : disk) : catalog_wf (ProductManager.mk ∅ 1 st).
Proof.
  intros k q Hq. unfold ProductManager.find_product in Hq. simpl in Hq.
  rewrite lookup_empty in Hq. discriminate.
Qed.

Lemma init_catalog_wf (d : disk) (pm : ProductManager.t) :
  ProductManager.init d = Ok pm -> catalog_wf pm.
Proof.
  unfold ProductManager.init, ProductManager.load_products. simpl.
  destruct (content d) as [| |data].
  - intros [= <-]. apply catalog_wf_empty.
  - intros [= <-]. apply catalog_wf_empty.
  - pose proof (load_records_catalog_wf data _ (catalog_wf_empty d)) as Hwf.
    destruct (ProductManager.load_records data (ProductManager.mk ∅ 1 d))
      as [[u|e] pm']; [|discriminate].
    intros [= <-]. exact Hwf.
Qed.

(** X2. The catalog keeps its invariant: every stored product is held under
    its own id, has a non-blank name and a price that is not below zero, and
    its id is below [next_id]. A manager built from any file has it, and
    [add_product], [update_product] and [delete_product] keep it, also when
    they raise. So [add_product] never writes over a product: the id it
    assigns is not in the store. *)
Theorem catalog_invariant :
  (forall (d : disk) (pm : ProductManager.t),
     ProductManager.init d = Ok pm -> catalog_wf pm) /\
  (forall (op : catalog_op) (pm : ProductManager.t),
     catalog_wf pm -> catalog_wf (snd (catalog_step op pm))) /\
  (forall (name : string) (price : pyval) (pm pm' : ProductManager.t) (p : Product.t),
     catalog_wf pm ->
     ProductManager.add_product name price pm = (Ok p, pm') ->
     ProductManager.find_product (Product.id p) pm = None /\
     ProductManager.find_product (Product.id p) pm' = Some p).
Proof.
  split; [|split].
  - exact init_catalog_wf.
  - intros op pm Hwf.
    destruct op as [name price|pid kwargs|pid allow_archive]; simpl.
    + unfold ProductManager.add_product.
      match goal with |- context [match ?r with Ok _ => _ | Raise _ => _ end] =>
        destruct r as [product|e] eqn:Hmade end; simpl; [|exact Hwf].
      apply bind_ok in Hmade as (b1 & _ & Hmade).
      apply bind_ok in Hmade as (b2 & _ & Hmade).
      apply bind_ok in Hmade as (f & _ & Hmade).
      apply catalog_wf_insert; [exact Hwf | | | simpl; lia | simpl; lia].
      * exact (product_new_id _ _ _ _ _ Hmade).
      * exact (product_new_valid _ _ _ _ _ Hmade).
    + unfold ProductManager.update_product.
      destruct (ProductManager.products pm !! pid) as [prod|] eqn:Hprod; [|exact Hwf].
      destruct (Hwf pid prod Hprod) as (Hid & Hv & Hlt).
      destruct (product_update_keeps kwargs prod Hv) as [Hid' Hv'].
      destruct (Product.update kwargs prod) as [[u|e] prod']; simpl in *;
        apply catalog_wf_insert; auto; try (simpl; lia); congruence.
    + unfold ProductManager.delete_product.
      destruct (ProductManager.products pm !! pid) as [p|] eqn:Hp; [|exact Hwf].
      destruct (Hwf pid p Hp) as (Hid & Hv & Hlt).
      destruct allow_archive; simpl.
      * apply catalog_wf_insert; auto; try (simpl; lia).
      * intros k q. unfold ProductManager.find_product. simpl.
        destruct (decide (k = pid)) as [->|Hne].
        -- rewrite lookup_delete_eq. discriminate.
        -- rewrite lookup_delete_ne by congruence. apply Hwf.
  - intros name price pm pm' p Hwf. unfold ProductManager.add_product.
    match goal with |- context [match ?r with Ok _ => _ | Raise _ => _ end] =>
      destruct r as [product|e] eqn:Hmade end; [|discriminate].
    intros [= -> <-].
    apply bind_ok in Hmade as (b1 & _ & Hmade).
    apply bind_ok in Hmade as (b2 & _ & Hmade).
    apply bind_ok in Hmade as (f & _ & Hmade).
    rewrite (product_new_id _ _ _ _ _ Hmade). split.
    + destruct (ProductManager.find_product (ProductManager.next_id pm) pm) as [q|] eqn:Hq;
        [|reflexivity].
      apply Hwf in Hq as (_ & _ & Hlt). lia.
    + unfold ProductManager.find_product. simpl. apply lookup_insert_eq.
Qed.

Lemma catalog_invariant_witness :
  catalog_wf
    (snd (catalog_step (UpdateProduct 1 [("name", VStr "Pencil"); ("price", VInt (-1))])
            sample_catalog)).
Proof.
  apply (proj1 (proj2 catalog_invariant)).
  apply (proj1 catalog_invariant (ProductManager.storage sample_catalog)).
  vm_compute. reflexivity.
Defined.

(** ** Saving and loading the catalog *)

(** Inserting the items of a list one after the other, as the load loops do. *)
Definition insert_all {K V} `{Countable K} (l : list (K * V)) (m : gmap K V) : gmap K V :=
  foldl (fun acc kv => <[kv.1 := kv.2]> acc) m l.

Lemma insert_all_list_to_map {K V} `{Countable K} (l : list (K * V)) :
  forall m : gmap K V, NoDup l.*1 -> insert_all l m = list_to_map l ∪ m.
Proof.
  unfold insert_all.
  induction l as [|[k v] l IH]; intros m Hnd.
  - simpl. rewrite (left_id_L ∅ (∪)). reflexivity.
  - rewrite fmap_cons in Hnd. apply NoDup_cons in Hnd as [Hk Hnd].
    change (foldl (fun acc kv => <[kv.1 := kv.2]> acc) (<[k := v]> m) l
            = list_to_map ((k, v) :: l) ∪ m).
    rewrite IH by exact Hnd. rewrite list_to_map_cons, <- insert_union_l.
    symmetry. apply insert_union_r.
    apply not_elem_of_list_to_map_1. exact Hk.
Qed.

Lemma insert_all_map_to_list {K V} `{Countable K} (m : gmap K V) :
  insert_all (map_to_list m) ∅ = m.
Proof.
  rewrite insert_all_list_to_map by apply NoDup_fst_map_to_list.
  rewrite (right_id_L ∅ (∪)). apply list_to_map_to_list.
Qed.





(** ** Invariants of the user store *)

Lemma and_then_inv {S} (P : S -> Prop) (r : result unit * S)
  (k : S -> result unit * S) :
  P (snd r) -> (forall s, P s -> P (snd (k s))) -> P (snd (and_then r k)).
Proof. destruct r as [[u|e] s]; simpl; auto. Qed.

Lemma update_field_inv {S X} (P : S -> Prop) (kwargs : list (string * pyval))
  (k : string) (validate : pyval -> result X) (assign : X -> S -> S) (self : S) :
  P self ->
  (forall v x, validate v = Ok x -> P (assign x self)) ->
  P (snd (update_field kwargs k validate assign self)).
Proof.
  intros Hself Hassign. unfold update_field.
  destruct (Product.supplied kwargs k) as [v|]; [|exact Hself].
  destruct (validate v) as [x|e] eqn:Hv; simpl; eauto.
Qed.

Lemma checked_str {B} (check : pyval -> result B) (v : pyval) (x : string) :
  (check v ;;; as_str v) = Ok x -> v = VStr x /\ exists b, check (VStr x) = Ok b.
Proof.
  intros H. apply bind_ok in H as (b & Hc & H).
  destruct v; try discriminate. injection H as ->. eauto.
Qed.

Lemma validate_username_true v existing b :
  Validators.validate_username v existing = Ok b -> b = true.
Proof.
  unfold Validators.validate_username.
  repeat match goal with
  | |- context [if ?c then _ else _] => destruct c
  | |- context [match ?x with VNone => _ | _ => _ end] => destruct x
  end; unfold raise; congruence.
Qed.

Lemma validate_password_true v b :
  Validators.validate_password v = Ok b -> b = true.
Proof.
  unfold Validators.validate_password, Validators.validate_password_min.
  repeat match goal with
  | |- context [if ?c then _ else _] => destruct c
  | |- context [match ?x with VNone => _ | _ => _ end] => destruct x
  end; unfold raise; congruence.
Qed.

Lemma validate_phonenumber_true v b :
  Validators.validate_phonenumber v = Ok b -> b = true.
Proof.
  unfold Validators.validate_phonenumber.
  repeat match goal with
  | |- context [if ?c then _ else _] => destruct c
  | |- context [match ?x with VNone => _ | _ => _ end] => destruct x
  end; unfold raise; congruence.
Qed.

Lemma validate_gender_true v b :
  Validators.validate_gender v = Ok b -> b = true.
Proof.
  unfold Validators.validate_gender.
  repeat match goal with
  | |- context [if ?c then _ else _] => destruct c
  | |- context [match ?x with VNone => _ | _ => _ end] => destruct x
  end; unfold raise; congruence.
Qed.

Lemma validate_usertype_stored (v : pyval) (b : bool) (s : string) :
  Validators.validate_usertype v = Ok b -> as_str v = Ok s ->
  str_in (lower s) ["admin"; "employee"; "customer"] = true.
Proof.
  intros Hv Hs. destruct v; try discriminate. injection Hs as ->.
  unfold Validators.validate_usertype in Hv.
  destruct (negb (truthy (VStr s))); [discriminate|].
  destruct (str_in (lower s) _); [reflexivity | discriminate].
Qed.

(** [User.update] leaves a valid user valid, also when it raises. *)
Lemma user_update_valid (kwargs : list (string * pyval)) (u : User.t) :
  user_valid u -> user_valid (snd (User_update kwargs u)).
Proof.
  intros Hu. unfold User_update.
  repeat apply and_then_inv.
  - destruct (dict_get "username" kwargs) as [v|e]; [|exact Hu].
    destruct (Validators.validate_username v [];;; as_str v) as [x|e] eqn:Hx;
      [|exact Hu].
    apply (checked_str (fun v => Validators.validate_username v [])) in Hx as [-> [b Hb]].
    apply validate_username_true in Hb as Hbt. subst b.
    destruct Hu as (_ & ? & ? & ? & ?). repeat split; assumption.
  - intros s Hs. apply update_field_inv; [exact Hs|]. intros v x Hx.
    cbv beta in Hx. apply checked_str in Hx as [-> [b Hb]].
    apply validate_password_true in Hb as Hbt. subst b.
    destruct Hs as (? & _ & ? & ? & ?). repeat split; assumption.
  - intros s Hs. apply update_field_inv; [exact Hs|]. intros v x Hx.
    cbv beta in Hx. apply checked_str in Hx as [-> [b Hb]].
    apply validate_phonenumber_true in Hb as Hbt. subst b.
    destruct Hs as (? & ? & ? & _ & ?). repeat split; assumption.
  - intros s Hs. apply update_field_inv; [exact Hs|]. intros v x Hx.
    cbv beta in Hx. apply checked_str in Hx as [-> [b Hb]].
    apply validate_gender_true in Hb as Hbt. subst b.
    destruct Hs as (? & ? & ? & ? & _). repeat split; assumption.
  - intros s Hs. apply update_field_inv; [exact Hs|]. intros v x [= <-].
    exact Hs.
  - intros s Hs. apply update_field_inv; [exact Hs|]. intros v x Hx.
    apply bind_ok in Hx as (b & Hb & Hx).
    apply bind_ok in Hx as (t & Ht & Hx). injection Hx as <-.
    pose proof (validate_usertype_stored v b t Hb Ht) as Hin.
    destruct Hs as (? & ? & _ & ? & ?). repeat split; assumption.
Qed.

(** [User.update] changes the username only to the one it is given. *)
Lemma user_update_username (kwargs : list (string * pyval)) (u : User.t) (k : string) :
  User.username u = k ->
  (forall v, dict_get "username" kwargs = Ok v ->
             is_ok (Validators.validate_username v []) = true -> v = VStr k) ->
  User.username (snd (User_update kwargs u)) = k.
Proof.
  intros Hu Hk. unfold User_update.
  repeat apply and_then_inv;
    try (intros s Hs; apply update_field_inv; [exact Hs | intros; exact Hs]).
  destruct (dict_get "username" kwargs) as [v|e]; [|exact Hu].
  destruct (Validators.validate_username v []) as [b|e] eqn:Hv; simpl; [|exact Hu].
  specialize (Hk v eq_refl). rewrite Hv in Hk. rewrite (Hk eq_refl). reflexivity.
Qed.

(** Every user of the store sits under its own username and passes the field
    rules. *)
Definition users_map_wf (m : gmap string User.t) : Prop :=
  forall k u, m !! k = Some u -> User.username u = k /\ user_valid u.

Definition users_wf (um : UserManager.t) : Prop := users_map_wf (UserManager.users um).

(** The operations of the user store. *)
Inductive user_op :=
  | AddUser (username password usertype phonenumber gender : string) (isactive : bool)
  | UpdateUser (username : string) (kwargs : list (string * pyval))
  | DeleteUser (username : string)
  | ActivateUser (username : string)
  | DeactivateUser (username : string).

Definition user_step (op : user_op) (um : UserManager.t) : UserManager.t :=
  match op with
  | AddUser username password usertype phonenumber gender isactive =>
      snd (UserManager.add_user username password usertype phonenumber gender isactive um)
  | UpdateUser username kwargs => snd (UserManager_update_user username kwargs um)
  | DeleteUser username => snd (UserManager.delete_user username um)
  | ActivateUser username => snd (UserManager.activate_user username um)
  | DeactivateUser username => snd (UserManager.deactivate_user username um)
  end.

Lemma users_map_wf_insert (m : gmap string User.t) (k : string) (u : User.t) :
  users_map_wf m -> User.username u = k -> user_valid u -> users_map_wf (<[k := u]> m).
Proof.
  intros Hwf Hk Hu k' u'. destruct (decide (k' = k)) as [->|Hne].
  - rewrite lookup_insert_eq. intros [= <-]. auto.
  - rewrite lookup_insert_ne by congruence. apply Hwf.
Qed.

Lemma users_map_wf_delete (m : gmap string User.t) (k : string) :
  users_map_wf m -> users_map_wf (delete k m).
Proof.
  intros Hwf k' u'. destruct (decide (k' = k)) as [->|Hne].
  - rewrite lookup_delete_eq. discriminate.
  - rewrite lookup_delete_ne by congruence. apply Hwf.
Qed.

Lemma user_new_username (username password usertype phonenumber gender isactive : pyval)
  (u : User.t) :
  User.new username password usertype phonenumber gender isactive = Ok u ->
  username = VStr (User.username u).
Proof.
  unfold User.new. intros H.
  apply bind_ok in H as (b1 & _ & H).
  apply bind_ok in H as (b2 & _ & H).
  apply bind_ok in H as (b3 & _ & H).
  apply bind_ok in H as (b4 & _ & H).
  apply bind_ok in H as (b5 & _ & H).
  apply bind_ok in H as (un & Hun & H).
  apply bind_ok in H as (pw & _ & H).
  apply bind_ok in H as (ut & _ & H).
  apply bind_ok in H as (ph & _ & H).
  apply bind_ok in H as (g & _ & H).
  apply bind_ok in H as (a & _ & H).
  injection H as <-. simpl. destruct username; try discriminate.
  injection Hun as ->. reflexivity.
Qed.

Lemma user_from_dict_wf (data : pyval) (u : User.t) :
  User.from_dict data = Ok u -> user_valid u.
Proof.
  unfold User.from_dict. intros H.
  apply bind_ok in H as (v1 & _ & H).
  apply bind_ok in H as (v2 & _ & H).
  apply bind_ok in H as (v3 & _ & H).
  apply bind_ok in H as (v4 & _ & H).
  apply bind_ok in H as (v5 & _ & H).
  apply bind_ok in H as (v6 & _ & H).
  eapply user_new_valid. exact H.
Qed.

Lemma user_load_records_wf (data : list pyval) :
  forall um : UserManager.t,
    users_wf um -> users_wf (snd (UserManager.load_records data um)).
Proof.
  induction data as [|user_data data IH]; intros um Hwf; simpl; [exact Hwf|].
  destruct (User.from_dict user_data) as [user|e] eqn:Hfrom; [|exact Hwf].
  apply IH. unfold users_wf. simpl.
  apply users_map_wf_insert; eauto using user_from_dict_wf.
Qed.

Lemma update_user_wf (username : string) (kwargs : list (string * pyval))
  (um : UserManager.t) :
  users_wf um -> users_wf (snd (UserManager_update_user username kwargs um)).
Proof.
  intros Hwf. unfold UserManager_update_user.
  destruct (UserManager.users um !! username) as [user|] eqn:Huser; [|exact Hwf].
  destruct (Hwf username user Huser) as [Hname Hvalid].
  assert (Hsame : forall (P : forall v, dict_get "username" kwargs = Ok v ->
                     is_ok (Validators.validate_username v []) = true -> v = VStr username),
            users_wf (snd (match User_update kwargs user with
                           | (Raise e, user2) =>
                               (Raise e, UserManager.mk (<[username := user2]> (UserManager.users um))
                                           (UserManager.storage um))
                           | (Ok _, user2) =>
                               (Ok user2,
                                UserManager.save_users
                                  (UserManager.mk (<[username := user2]> (UserManager.users um))
                                     (UserManager.storage um)))
                           end))).
  { intros P.
    pose proof (user_update_valid kwargs user Hvalid) as Hv2.
    pose proof (user_update_username kwargs user username Hname P) as Hn2.
    destruct (User_update kwargs user) as [[u0|e] user2]; simpl in *;
      apply users_map_wf_insert; assumption. }
  destruct (dict_get "username" kwargs) as [v|e] eqn:Hget.
  2:{ apply Hsame. intros v [=]. }
  destruct (differs_from v username) eqn:Hdiff.
  2:{ apply Hsame. intros v' [= <-] _. destruct v; try discriminate.
      simpl in Hdiff. apply negb_false_iff, String.eqb_eq in Hdiff. congruence. }
  destruct (Validators.validate_username v (keys (UserManager.users um))) as [b|e] eqn:Hv;
    simpl; [|exact Hwf].
  destruct v as [| | | |new| |]; simpl; try exact Hwf.
  assert (Hnew : Validators.validate_username (VStr new) [] = Ok true).
  { apply (validate_username_weaken new (keys (UserManager.users um))).
    rewrite Hv. reflexivity. }
  assert (Hvalid' : user_valid (set_username new user)).
  { destruct Hvalid as (_ & ? & ? & ? & ?). repeat split; assumption. }
  pose proof (user_update_valid kwargs _ Hvalid') as Hv2.
  assert (Hn2 : User.username (snd (User_update kwargs (set_username new user))) = new).
  { apply user_update_username; [reflexivity|]. intros v' Hv' _. congruence. }
  destruct (User_update kwargs (set_username new user)) as [[u0|e] user2]; simpl in *;
    (apply users_map_wf_insert; [|assumption|assumption];
     apply users_map_wf_insert; [|reflexivity|assumption];
     apply users_map_wf_delete; exact Hwf).
Qed.

(** X4. The user store keeps its invariant: every stored user is held under
    its own username and passes the five field rules, with its user type one
    of the three names in lower case. A manager built from any file has it,
    and [add_user], [update_user], [delete_user], [activate_user] and
    [deactivate_user] keep it, also when they raise. *)
Theorem user_store_invariant :
  (forall (d : disk) (um : UserManager.t), UserManager.init d = Ok um -> users_wf um) /\
  (forall (op : user_op) (um : UserManager.t), users_wf um -> users_wf (user_step op um)).
Proof.
  split.
  - intros d um. unfold UserManager.init, UserManager.load_users. simpl.
    assert (Hempty : users_wf (UserManager.mk ∅ d)).
    { intros k u Hk. simpl in Hk. rewrite lookup_empty in Hk. discriminate. }
    destruct (content d) as [| |data].
    + intros [= <-]. exact Hempty.
    + intros [= <-]. exact Hempty.
    + pose proof (user_load_records_wf data _ Hempty) as Hwf.
      destruct (UserManager.load_records data (UserManager.mk ∅ d)) as [[u|e] um'];
        [|discriminate].
      intros [= <-]. exact Hwf.
  - intros op um Hwf.
    destruct op as [username password usertype phonenumber gender isactive
                   |username kwargs|username|username|username]; simpl.
    + unfold UserManager.add_user.
      match goal with |- context [match ?r with Ok _ => _ | Raise _ => _ end] =>
        destruct r as [user|e] eqn:Hmade end; simpl; [|exact Hwf].
      apply bind_ok in Hmade as (b1 & _ & Hmade).
      apply bind_ok in Hmade as (b2 & _ & Hmade).
      apply bind_ok in Hmade as (b3 & _ & Hmade).
      apply bind_ok in Hmade as (b4 & _ & Hmade).
      apply bind_ok in Hmade as (b5 & _ & Hmade).
      apply users_map_wf_insert; [exact Hwf| |eapply user_new_valid; exact Hmade].
      apply user_new_username in Hmade. congruence.
    + apply update_user_wf. exact Hwf.
    + unfold UserManager.delete_user.
      destruct (UserManager.users um !! username); [|exact Hwf].
      simpl. apply users_map_wf_delete. exact Hwf.
    + unfold UserManager.activate_user, UserManager.find_user.
      destruct (UserManager.users um !! username) as [user|] eqn:Hu; [|exact Hwf].
      destruct (Hwf username user Hu) as [Hn Hv].
      simpl. apply users_map_wf_insert; [exact Hwf | exact Hn | exact Hv].
    + unfold UserManager.deactivate_user, UserManager.find_user.
      destruct (UserManager.users um !! username) as [user|] eqn:Hu; [|exact Hwf].
      destruct (Hwf username user Hu) as [Hn Hv].
      simpl. apply users_map_wf_insert; [exact Hwf | exact Hn | exact Hv].
Qed.

Lemma user_store_invariant_witness :
  users_wf
    (user_step (UpdateUser "alice" [("username", VStr "alicia"); ("password", VStr "short")])
       (System.user_manager two_users)).
Proof.
  apply (proj2 user_store_invariant).
  apply (proj2 user_store_invariant
           (AddUser "bob" "Passw0rd#" "employee" "731234567" "m" false)).
  apply (proj2 user_store_invariant
           (AddUser "alice" "Secret1!" "customer" "771234567" "f" true)).
  apply (proj1 user_store_invariant empty_disk). reflexivity.
Defined.

(** ** Renaming a user *)






(** ** Roles *)

(** X7. [require_role] returns exactly when a user is logged in whose user
    type is among the given roles, lower-cased; otherwise it raises
    AuthorizationError. After [logout] it raises "You must be logged in"
    whatever the roles, and right after a successful [login] it accepts
    every role that lowers to the user type of the user who logged in. *)
Theorem require_role_spec (sys : System.t) (roles : list string) :
  (System_require_role roles sys = Ok tt <->
   exists user,
     System.current_user sys = Some user /\ In (User.usertype user) (map lower roles)) /\
  (System_require_role roles sys = Ok tt \/
   raises (System_require_role roles sys) AuthorizationError) /\
  System_require_role roles (System.logout sys)
  = Raise (Exn AuthorizationError "You must be logged in") /\
  (forall username password user sys' role,
     System.login username password sys = (Ok user, sys') ->
     lower role = User.usertype user ->
     System_is_logged_in sys' = true /\ System_require_role [role] sys' = Ok tt).
Proof.
  unfold System_require_role. split; [|split; [|split]].
  - destruct (System.current_user sys) as [user|].
    + destruct (str_in (User.usertype user) (map lower roles)) eqn:Hin; simpl.
      * split; [|reflexivity]. intros _. exists user. split; [reflexivity|].
        apply str_in_spec. exact Hin.
      * split; [discriminate|]. intros (u & [= <-] & Hu).
        apply str_in_spec in Hu. congruence.
    + split; [discriminate|]. intros (u & [=] & _).
  - unfold raises, raise. destruct (System.current_user sys) as [user|]; [|eauto].
    destruct (negb _); eauto.
  - reflexivity.
  - intros username password user sys' role. unfold System.login.
    destruct (UserManager.find_user username (System.user_manager sys)) as [u|] eqn:Hu;
      [|discriminate].
    destruct (negb (User.isactive u)); [discriminate|].
    destruct (negb (String.eqb (User.password u) password)); [discriminate|].
    intros [= -> <-] Hrole. simpl. rewrite Hrole.
    rewrite String.eqb_refl. split; reflexivity.
Qed.

Lemma require_role_spec_witness :
  System_is_logged_in (snd (System.login "alice" "Secret1!" two_users)) = true /\
  System_require_role ["Customer"] (snd (System.login "alice" "Secret1!" two_users)) = Ok tt.
Proof.
  apply (proj2 (proj2 (proj2 (require_role_spec two_users [])))
           "alice" "Secret1!" (User.mk "alice" "Secret1!" "customer" "771234567" "f" true)).
  - vm_compute. reflexivity.
  - reflexivity.
Defined.

(** ** Start-up *)

Lemma validate_username_fresh (u : string) (existing : list string) :
  Validators.validate_username (VStr u) [] = Ok true ->
  str_in u existing = false ->
  Validators.validate_username (VStr u) existing = Ok true.
Proof.
  unfold Validators.validate_username. intros Hok Hnot.
  destruct (negb (truthy (VStr u))); [discriminate|].
  destruct (String.eqb (strip u) ""); [discriminate|].
  destruct (negb (match_username_re (chars u))); [discriminate|].
  rewrite Hnot. destruct existing; reflexivity.
Qed.

Definition default_admin : User.t :=
  User.mk "admin" "Adm!n1234" "admin" "771234567" "male" true.

(** What [add_user("admin", ...)] of the constructor does to a store. *)
Lemma add_default_admin (um : UserManager.t) :
  UserManager.add_user "admin" "Adm!n1234" "admin" "771234567" "male" true um
  = match UserManager.find_user "admin" um with
    | Some _ => (Raise (Exn ValidationError "The username is found"), um)
    | None =>
        (Ok default_admin,
         UserManager.save_users
           (UserManager.mk (<["admin" := default_admin]> (UserManager.users um))
              (UserManager.storage um)))
    end.
Proof.
  unfold UserManager.add_user, UserManager.find_user.
  destruct (UserManager.users um !! "admin") as [u|] eqn:Hu.
  - rewrite (validate_username_existing "admin" (keys (UserManager.users um)));
      [reflexivity | reflexivity |].
    apply str_in_spec, str_in_keys. eauto.
  - rewrite (validate_username_fresh "admin" (keys (UserManager.users um)));
      [reflexivity | reflexivity |].
    destruct (str_in "admin" (keys (UserManager.users um))) eqn:Hin; [|reflexivity].
    apply str_in_keys in Hin as [x Hx]. congruence.
Qed.

(** X8. [System()] starts exactly when the three files load. Nobody is
    logged in, and the user store holds a user "admin": when the users file
    has none, the default admin (password "Adm!n1234", active) is added and
    saved; when it has one, that user is kept as loaded, whatever its
    password, role and active flag, and the store is the loaded one. The
    catalog and the orders are the loaded ones. *)
Theorem system_init_admin (users_disk products_disk orders_disk : disk) :
  (is_ok (System_init users_disk products_disk orders_disk)
   = is_ok (UserManager.init users_disk) && is_ok (ProductManager.init products_disk)
     && is_ok (OrderManager.init orders_disk)) /\
  forall sys um,
    System_init users_disk products_disk orders_disk = Ok sys ->
    UserManager.init users_disk = Ok um ->
    System.current_user sys = None /\
    ProductManager.init products_disk = Ok (System.product_manager sys) /\
    OrderManager.init orders_disk = Ok (System.order_manager sys) /\
    match UserManager.find_user "admin" um with
    | Some u =>
        System.user_manager sys = um /\
        UserManager.find_user "admin" (System.user_manager sys) = Some u
    | None =>
        UserManager.find_user "admin" (System.user_manager sys) = Some default_admin /\
        System.user_manager sys
        = UserManager.save_users
            (UserManager.mk (<["admin" := default_admin]> (UserManager.users um))
               (UserManager.storage um))
    end.
Proof.
  unfold System_init. split.
  - destruct (UserManager.init users_disk) as [um|e]; [|reflexivity].
    destruct (ProductManager.init products_disk) as [pm|e]; [|reflexivity].
    destruct (OrderManager.init orders_disk) as [om|e]; [|reflexivity].
    simpl. rewrite add_default_admin.
    destruct (UserManager.find_user "admin" um); reflexivity.
  - intros sys um Hsys Hum. rewrite Hum in Hsys.
    destruct (ProductManager.init products_disk) as [pm|e]; [|discriminate].
    destruct (OrderManager.init orders_disk) as [om|e]; [|discriminate].
    simpl in Hsys. rewrite add_default_admin in Hsys.
    destruct (UserManager.find_user "admin" um) as [u|] eqn:Hadmin.
    + injection Hsys as <-. simpl. auto.
    + injection Hsys as <-. simpl. repeat split.
      unfold UserManager.find_user. simpl. apply lookup_insert_eq.
Qed.

Lemma system_init_admin_witness :
  System.current_user
    (System.mk
       (snd (UserManager.add_user "admin" "Adm!n1234" "admin" "771234567" "male" true no_users))
       fresh_catalog no_orders None) = None /\
  ProductManager.init empty_disk = Ok fresh_catalog /\
  OrderManager.init empty_disk = Ok no_orders /\
  UserManager.find_user "admin"
    (snd (UserManager.add_user "admin" "Adm!n1234" "admin" "771234567" "male" true no_users))
  = Some default_admin /\
  snd (UserManager.add_user "admin" "Adm!n1234" "admin" "771234567" "male" true no_users)
  = UserManager.save_users
      (UserManager.mk (<["admin" := default_admin]> (UserManager.users no_users))
         (UserManager.storage no_users)).
Proof.
  apply (proj2 (system_init_admin empty_disk empty_disk empty_disk)
           (System.mk
              (snd (UserManager.add_user "admin" "Adm!n1234" "admin" "771234567" "male" true
                      no_users))
              fresh_catalog no_orders None)
           no_users).
  - vm_compute. reflexivity.
  - reflexivity.
Defined.

(** ** Deactivated accounts *)

(** The system after a call on [self.user_manager] that left it as [um]. *)
Definition with_user_manager (um : UserManager.t) (sys : System.t) : System.t :=
  System.mk um (System.product_manager sys) (System.order_manager sys)
    (System.current_user sys).

(** X9. For a stored user, [deactivate_user] returns True and from then on
    [login] with that username fails with "User account is not active"
    whatever the password, the right one included, and changes nothing.
    [activate_user] undoes it: [login] with the stored password then returns
    the user, active, with its other fields as they were. Neither call
    touches another user. *)
Theorem deactivate_blocks_login
  (sys : System.t) (username password : string) (user : User.t) :
  UserManager.find_user username (System.user_manager sys) = Some user ->
  let off := UserManager.deactivate_user username (System.user_manager sys) in
  let on := UserManager.activate_user username (snd off) in
  fst off = Ok true /\ fst on = Ok true /\
  System.login username password (with_user_manager (snd off) sys)
  = (Raise (Exn AuthenticationError "User account is not active"),
     with_user_manager (snd off) sys) /\
  System.login username (User.password user) (with_user_manager (snd on) sys)
  = (Ok (set_isactive true user),
     System.mk (snd on) (System.product_manager sys) (System.order_manager sys)
       (Some (set_isactive true user))) /\
  forall other, other <> username ->
    UserManager.find_user other (snd off) = UserManager.find_user other (System.user_manager sys) /\
    UserManager.find_user other (snd on) = UserManager.find_user other (System.user_manager sys).
Proof.
  intros Huser. cbv zeta.
  unfold UserManager.deactivate_user. rewrite Huser. simpl.
  unfold UserManager.activate_user, UserManager.find_user. simpl.
  rewrite lookup_insert_eq. simpl.
  split; [reflexivity|]. split; [reflexivity|]. split; [|split].
  - unfold System.login, UserManager.find_user. simpl. rewrite lookup_insert_eq.
    reflexivity.
  - unfold System.login, UserManager.find_user. simpl. rewrite lookup_insert_eq.
    simpl. rewrite String.eqb_refl. reflexivity.
  - intros other Hne. rewrite !lookup_insert_ne by congruence. split; reflexivity.
Qed.

Lemma deactivate_blocks_login_witness :
  let sys := two_users in
  let off := UserManager.deactivate_user "alice" (System.user_manager sys) in
  System.login "alice" "Secret1!" (with_user_manager (snd off) sys)
  = (Raise (Exn AuthenticationError "User account is not active"),
     with_user_manager (snd off) sys).
Proof.
  exact (proj1 (proj2 (proj2
           (deactivate_blocks_login two_users "alice" "Secret1!"
              (User.mk "alice" "Secret1!" "customer" "771234567" "f" true)
              ltac:(vm_compute; reflexivity))))).
Defined.

(** ** Invariants of the order store *)

(** Every order of the store sits under its own id, has only lines with a
    positive quantity and a price not below zero, and an id below the
    counter. *)
Definition orders_wf (om : OrderManager.t) : Prop :=
  forall oid o,
    OrderManager.find_order oid om = Some o ->
    Order.order_id o = oid /\ order_valid o /\ oid < OrderManager.next_order_id om.

Lemma order_item_from_dict_valid (data : pyval) (it : OrderItem.t) :
  OrderItem.from_dict data = Ok it -> order_item_valid it.
Proof.
  unfold OrderItem.from_dict, OrderItem.new. intros H.
  apply bind_ok in H as (i & _ & H).
  apply bind_ok in H as (q & _ & H).
  apply bind_ok in H as (p & _ & H).
  apply bind_ok in H as (b1 & Hq & H).
  apply bind_ok in H as (b2 & Hp & H).
  apply bind_ok in H as (n & _ & H).
  apply bind_ok in H as (m & Hm & H).
  apply bind_ok in H as (f & Hf & H).
  injection H as <-. unfold order_item_valid. simpl.
  apply validate_quantity_ok in Hq as [_ (m' & Hm' & Hpos)].
  split; [congruence|]. eapply validated_price; eassumption.
Qed.

Lemma load_items_valid (l : list pyval) :
  forall order order',
    Order.load_items l order = Ok order' ->
    Order.order_id order' = Order.order_id order /\
    (order_valid order -> order_valid order').
Proof.
  induction l as [|item_data l IH]; intros order order' H; simpl in H.
  - injection H as <-. auto.
  - apply bind_ok in H as (item & Hitem & H).
    apply IH in H as [Hid Hvalid]. split; [exact Hid|].
    intros Hv. apply Hvalid. unfold order_valid, Order.add_item. simpl.
    apply Forall_app. split; [exact Hv|].
    constructor; [|constructor]. eapply order_item_from_dict_valid. exact Hitem.
Qed.

Lemma order_from_dict_valid (data : pyval) (o : Order.t) :
  Order.from_dict data = Ok o -> order_valid o.
Proof.
  unfold Order.from_dict. intros H.
  apply bind_ok in H as (v1 & _ & H).
  apply bind_ok in H as (v2 & _ & H).
  apply bind_ok in H as (oid & _ & H).
  apply bind_ok in H as (un & _ & H).
  apply bind_ok in H as (v3 & _ & H).
  apply bind_ok in H as (st & _ & H).
  apply bind_ok in H as (v4 & _ & H).
  apply bind_ok in H as (its & _ & H).
  apply load_items_valid in H as [_ Hv]. apply Hv. constructor.
Qed.

Lemma orders_wf_insert (om : OrderManager.t) (oid n : Z) (o : Order.t) (st : disk) :
  orders_wf om -> Order.order_id o = oid -> order_valid o ->
  oid < n -> OrderManager.next_order_id om <= n ->
  orders_wf (OrderManager.mk (<[oid := o]> (OrderManager.orders om)) n st).
Proof.
  intros Hwf Hid Hv Hlt Hle k q. unfold OrderManager.find_order. simpl.
  destruct (decide (k = oid)) as [->|Hne].
  - rewrite lookup_insert_eq. intros [= <-]. auto.
  - rewrite lookup_insert_ne by congruence. intros Hq.
    apply Hwf in Hq as (? & ? & ?). split; [assumption|]. split; [assumption|lia].
Qed.

Lemma orders_wf_empty (st : disk) : orders_wf (OrderManager.mk ∅ 1 st).
Proof.
  intros k q Hq. unfold OrderManager.find_order in Hq. simpl in Hq.
  rewrite lookup_empty in Hq. discriminate.
Qed.

Lemma order_load_records_wf (data : list pyval) :
  forall om : OrderManager.t,
    orders_wf om -> orders_wf (snd (OrderManager.load_records data om)).
Proof.
  induction data as [|order_data data IH]; intros om Hwf; simpl; [exact Hwf|].
  destruct (Order.from_dict order_data) as [order|e] eqn:Hfrom; [|exact Hwf].
  apply IH.
  destruct (Z.leb_spec (OrderManager.next_order_id om) (Order.order_id order)); simpl.
  - apply orders_wf_insert; eauto using order_from_dict_valid; lia.
  - apply orders_wf_insert; eauto using order_from_dict_valid; lia.
Qed.

Lemma init_orders_wf (d : disk) (om : OrderManager.t) :
  OrderManager.init d = Ok om -> orders_wf om.
Proof.
  unfold OrderManager.init, OrderManager.load_orders. simpl.
  destruct (content d) as [| |data].
  - intros [= <-]. apply orders_wf_empty.
  - intros [= <-]. apply orders_wf_empty.
  - pose proof (order_load_records_wf data _ (orders_wf_empty d)) as Hwf.
    destruct (OrderManager.load_records data (OrderManager.mk ∅ 1 d))
      as [[u|e] om']; [|discriminate].
    intros [= <-]. exact Hwf.
Qed.

(** X10. The order store keeps its invariant: every stored order is held
    under its own id, all its lines have a positive quantity and a price
    that is not below zero, and its id is below [next_order_id]. A manager
    built from any file has it; [create_order] and [update_order_status]
    keep it, also when they raise. So [create_order] never writes over an
    order: the id it assigns was not in the store. *)
Theorem order_store_invariant :
  (forall (d : disk) (om : OrderManager.t), OrderManager.init d = Ok om -> orders_wf om) /\
  (forall pm username items om,
     orders_wf om -> orders_wf (snd (OrderManager.create_order pm username items om))) /\
  (forall order_id new_status om,
     orders_wf om -> orders_wf (snd (OrderManager.update_order_status order_id new_status om))) /\
  (forall pm username items om order om',
     orders_wf om ->
     OrderManager.create_order pm username items om = (Ok order, om') ->
     OrderManager.find_order (Order.order_id order) om = None).
Proof.
  split; [exact init_orders_wf|]. split; [|split].
  - intros pm username items om Hwf. unfold OrderManager.create_order.
    destruct (OrderManager.add_items _ _ _) as [o|e] eqn:Hadd; simpl; [|exact Hwf].
    apply add_items_lines in Hadd as (lines & _ & Hvalid & ->).
    apply orders_wf_insert; [exact Hwf | reflexivity | exact Hvalid | simpl; lia | simpl; lia].
  - intros order_id new_status om Hwf.
    unfold OrderManager.update_order_status, Order.update_status.
    destruct (OrderManager.find_order order_id om) as [order|] eqn:Hfind; [|exact Hwf].
    destruct (Hwf order_id order Hfind) as (Hid & Hv & Hlt).
    destruct (negb (str_in (lower new_status) Order.VALID_STATUSES)); simpl; [exact Hwf|].
    apply orders_wf_insert; [exact Hwf | exact Hid | exact Hv | simpl; lia | simpl; lia].
  - intros pm username items om order om' Hwf. unfold OrderManager.create_order.
    destruct (OrderManager.add_items _ _ _) as [o|e] eqn:Hadd; [|discriminate].
    intros [= -> <-].
    apply add_items_lines in Hadd as (lines & _ & _ & ->). simpl.
    destruct (OrderManager.find_order (OrderManager.next_order_id om) om) as [q|] eqn:Hq;
      [|reflexivity].
    apply Hwf in Hq as (_ & _ & Hlt). lia.
Qed.

Lemma order_store_invariant_witness :
  OrderManager.find_order 2 one_order = None.
Proof.
  apply (proj2 (proj2 (proj2 order_store_invariant)) sample_catalog "bob" [(1, VInt 1)]
           one_order
           (Order.mk 2 "bob" [OrderItem.mk 1 1 1.5] "pending")
           (snd (OrderManager.create_order sample_catalog "bob" [(1, VInt 1)] one_order))).
  - apply (init_orders_wf (OrderManager.storage one_order)). vm_compute. reflexivity.
  - vm_compute. reflexivity.
Defined.

(** ** Saving and loading users and orders *)

Lemma load_users_saved (l : list (string * User.t)) :
  Forall (fun kp => User.username kp.2 = kp.1 /\ user_valid kp.2) l ->
  forall um : UserManager.t,
    UserManager.load_records (map (fun kp => User.to_dict kp.2) l) um
    = (Ok tt, UserManager.mk (insert_all l (UserManager.users um)) (UserManager.storage um)).
Proof.
  induction 1 as [|[k u] l [Hk Hv] _ IH]; intros um; simpl.
  - destruct um; reflexivity.
  - simpl in Hk. rewrite (user_roundtrip u Hv), Hk. rewrite IH. reflexivity.
Qed.

(** X11. What [save_users] writes, a new manager reads back: when the file
    can be written and the store has its invariant, the manager built from
    the saved file is the saved manager itself, users and file. *)
Theorem save_then_load_users (um : UserManager.t) :
  users_wf um ->
  writable (UserManager.storage um) = true ->
  UserManager.init (UserManager.storage (UserManager.save_users um))
  = Ok (UserManager.save_users um).
Proof.
  intros Hwf Hw.
  unfold UserManager.init, UserManager.load_users, UserManager.save_users, write, values.
  simpl. rewrite Hw. simpl. rewrite map_map.
  rewrite load_users_saved.
  - simpl. rewrite insert_all_map_to_list. reflexivity.
  - apply List.Forall_forall. intros [k u] Hin.
    apply list_elem_of_In, elem_of_map_to_list in Hin. exact (Hwf k u Hin).
Qed.

Lemma init_users_wf (d : disk) (um : UserManager.t) :
  UserManager.init d = Ok um -> users_wf um.
Proof.
  unfold UserManager.init, UserManager.load_users. simpl.
  assert (Hempty : users_wf (UserManager.mk ∅ d)).
  { intros k u Hk. simpl in Hk. rewrite lookup_empty in Hk. discriminate. }
  destruct (content d) as [| |data].
  - intros [= <-]. exact Hempty.
  - intros [= <-]. exact Hempty.
  - pose proof (user_load_records_wf data _ Hempty) as Hwf.
    destruct (UserManager.load_records data (UserManager.mk ∅ d)) as [[u|e] um'];
      [|discriminate].
    intros [= <-]. exact Hwf.
Qed.

Lemma save_then_load_users_witness :
  UserManager.init
    (UserManager.storage (UserManager.save_users (System.user_manager two_users)))
  = Ok (UserManager.save_users (System.user_manager two_users)).
Proof.
  apply (save_then_load_users (System.user_manager two_users)).
  - apply (init_users_wf (UserManager.storage (System.user_manager two_users))).
    vm_compute. reflexivity.
  - reflexivity.
Defined.





(** ** Listings *)

Lemma in_values {K V} `{Countable K} (m : gmap K V) (v : V) :
  In v (values m) <-> exists k, m !! k = Some v.
Proof.
  unfold values. rewrite in_map_iff. split.
  - intros [[k v'] [Hv Hin]]. simpl in Hv. subst v'. exists k.
    apply elem_of_map_to_list, list_elem_of_In. exact Hin.
  - intros [k Hk]. exists (k, v). split; [reflexivity|].
    apply list_elem_of_In, elem_of_map_to_list. exact Hk.
Qed.

(** What [list_products] returns: the stored products, without the archived
    ones unless [include_inactive] is set. *)
Lemma in_list_products (include_inactive : bool) (pm : ProductManager.t) (p : Product.t) :
  In p (ProductManager.list_products include_inactive pm) <->
  exists pid,
    ProductManager.find_product pid pm = Some p /\
    (include_inactive = true \/ Product.is_active p = true).
Proof.
  unfold ProductManager.list_products, ProductManager.find_product.
  destruct include_inactive.
  - rewrite in_values. split; intros [pid H]; exists pid; tauto.
  - rewrite <- list_elem_of_In, list_elem_of_filter, list_elem_of_In, in_values. split.
    + intros [Ha [pid H]]. exists pid. auto.
    + intros [pid [H [Hd|Ha]]]; [discriminate|]. split; [exact Ha|]. exists pid. exact H.
Qed.

(** X13. [delete_product] on a stored product returns True either way. With
    [allow_archive] the product stays in the store, inactive: [find_product]
    still returns it and the full listing shows it archived, the default
    listing no longer shows it. Without [allow_archive] it is gone from the
    store and from both listings. The other products are listed as before. *)
Theorem delete_product_listing
  (pid : Z) (allow_archive : bool) (pm : ProductManager.t) (p : Product.t) :
  catalog_wf pm ->
  ProductManager.find_product pid pm = Some p ->
  let pm' := snd (ProductManager.delete_product pid allow_archive pm) in
  fst (ProductManager.delete_product pid allow_archive pm) = Ok true /\
  ProductManager.find_product pid pm'
  = (if allow_archive then Some (ProductManager.archive p) else None) /\
  (forall q, In q (ProductManager.list_products false pm') <->
             In q (ProductManager.list_products false pm) /\ Product.id q <> pid) /\
  (forall q, In q (ProductManager.list_products true pm') <->
             (In q (ProductManager.list_products true pm) /\ Product.id q <> pid) \/
             (allow_archive = true /\ q = ProductManager.archive p)).
Proof.
  intros Hwf Hfind pm'.
  assert (Hkey : forall k q, ProductManager.find_product k pm = Some q -> Product.id q = k).
  { intros k q Hq. apply (Hwf k q Hq). }
  assert (Hstore : forall k q,
             ProductManager.find_product k pm' = Some q <->
             (k <> pid /\ ProductManager.find_product k pm = Some q) \/
             (k = pid /\ allow_archive = true /\ q = ProductManager.archive p)).
  { intros k q. subst pm'. unfold ProductManager.delete_product, ProductManager.find_product in *.
    rewrite Hfind. destruct allow_archive; simpl.
    - destruct (decide (k = pid)) as [->|Hne].
      + rewrite lookup_insert_eq. split.
        * intros [= <-]. right. auto.
        * intros [[Hne _]|(_ & _ & ->)]; [contradiction|reflexivity].
      + rewrite lookup_insert_ne by congruence. split.
        * intros Hq. left. auto.
        * intros [[_ Hq]|[Heq _]]; [exact Hq|contradiction].
    - destruct (decide (k = pid)) as [->|Hne].
      + rewrite lookup_delete_eq. split; [discriminate|].
        intros [[Hne _]|(_ & Hd & _)]; [contradiction|discriminate].
      + rewrite lookup_delete_ne by congruence. split.
        * intros Hq. left. auto.
        * intros [[_ Hq]|[Heq _]]; [exact Hq|contradiction]. }
  split; [|split; [|split]].
  - subst pm'. unfold ProductManager.delete_product, ProductManager.find_product in *.
    rewrite Hfind. destruct allow_archive; reflexivity.
  - destruct allow_archive.
    + apply Hstore. right. auto.
    + destruct (ProductManager.find_product pid pm') as [q|] eqn:Hq; [|reflexivity].
      apply Hstore in Hq as [[Hne _]|(_ & Hd & _)]; [contradiction|discriminate].
  - intros q. rewrite !in_list_products. split.
    + intros (k & Hq & [Hd|Ha]); [discriminate|].
      apply Hstore in Hq as [[Hne Hq]|(_ & _ & ->)]; [|discriminate].
      split; [exists k; auto|]. rewrite (Hkey k q Hq). exact Hne.
    + intros [(k & Hq & [Hd|Ha]) Hne]; [discriminate|].
      exists k. split; [|auto]. apply Hstore. left. split; [|exact Hq].
      rewrite <- (Hkey k q Hq). exact Hne.
  - intros q. rewrite !in_list_products. split.
    + intros (k & Hq & _).
      apply Hstore in Hq as [[Hne Hq]|(_ & Ha & ->)]; [left|right; auto].
      split; [exists k; auto|]. rewrite (Hkey k q Hq). exact Hne.
    + intros [[(k & Hq & _) Hne]|[Ha ->]].
      * exists k. split; [|auto]. apply Hstore. left. split; [|exact Hq].
        rewrite <- (Hkey k q Hq). exact Hne.
      * exists pid. split; [|auto]. apply Hstore. right. auto.
Qed.

Lemma delete_product_listing_witness :
  fst (ProductManager.delete_product 1 true sample_catalog) = Ok true /\
  ProductManager.find_product 1 (snd (ProductManager.delete_product 1 true sample_catalog))
  = Some (ProductManager.archive (Product.mk 1 "Pen" 1.5 true)) /\
  (forall q,
     In q (ProductManager.list_products false
             (snd (ProductManager.delete_product 1 true sample_catalog))) <->
     In q (ProductManager.list_products false sample_catalog) /\ Product.id q <> 1) /\
  (forall q,
     In q (ProductManager.list_products true
             (snd (ProductManager.delete_product 1 true sample_catalog))) <->
     (In q (ProductManager.list_products true sample_catalog) /\ Product.id q <> 1) \/
     (true = true /\ q = ProductManager.archive (Product.mk 1 "Pen" 1.5 true))).
Proof.
  apply (delete_product_listing 1 true sample_catalog (Product.mk 1 "Pen" 1.5 true)).
  - apply (init_catalog_wf (ProductManager.storage sample_catalog)). vm_compute. reflexivity.
  - vm_compute. reflexivity.
Defined.

(** What [list_user_orders] returns: the stored orders of that user. *)
Lemma in_list_user_orders (username : string) (om : OrderManager.t) (o : Order.t) :
  In o (OrderManager.list_user_orders username om) <->
  Order.user_username o = username /\ In o (OrderManager.list_orders om).
Proof.
  unfold OrderManager.list_user_orders, OrderManager.list_orders.
  rewrite <- list_elem_of_In, list_elem_of_filter, list_elem_of_In. reflexivity.
Qed.

(** X14. An order that [create_order] returns is new, pending, in the name of
    the customer, and from then on listed: [list_orders] returns the orders
    it returned before and this one, [list_user_orders] shows it to that
    customer and to nobody else, and every user's earlier orders are still
    listed. *)
Theorem create_order_listed
  (pm : ProductManager.t) (username : string) (items : list (Z * pyval))
  (om om' : OrderManager.t) (order : Order.t) :
  orders_wf om ->
  OrderManager.create_order pm username items om = (Ok order, om') ->
  Order.user_username order = username /\
  Order.status order = "pending" /\
  ~ In order (OrderManager.list_orders om) /\
  (forall o, In o (OrderManager.list_orders om') <->
             In o (OrderManager.list_orders om) \/ o = order) /\
  (forall u o, In o (OrderManager.list_user_orders u om') <->
               In o (OrderManager.list_user_orders u om) \/ (o = order /\ u = username)).
Proof.
  intros Hwf. unfold OrderManager.create_order.
  destruct (OrderManager.add_items _ _ _) as [o'|e] eqn:Hadd; [|discriminate].
  intros [= -> <-].
  apply add_items_lines in Hadd as (lines & _ & _ & Horder). simpl in Horder.
  assert (Hid : Order.order_id order = OrderManager.next_order_id om)
    by (rewrite Horder; reflexivity).
  assert (Hfresh : OrderManager.orders om !! OrderManager.next_order_id om = None).
  { destruct (OrderManager.orders om !! OrderManager.next_order_id om) as [q|] eqn:Hq;
      [|reflexivity].
    apply Hwf in Hq as (_ & _ & Hlt). lia. }
  assert (Hnew : ~ In order (OrderManager.list_orders om)).
  { unfold OrderManager.list_orders. rewrite in_values. intros [k Hk].
    pose proof (Hwf k order Hk) as (Hk' & _ & Hlt). lia. }
  assert (Hall : forall o,
             In o (OrderManager.list_orders
                     (OrderManager.save_orders
                        (OrderManager.mk
                           (<[OrderManager.next_order_id om := order]> (OrderManager.orders om))
                           (OrderManager.next_order_id om + 1) (OrderManager.storage om)))) <->
             In o (OrderManager.list_orders om) \/ o = order).
  { intros o. unfold OrderManager.list_orders. simpl. rewrite !in_values. split.
    - intros [k Hk]. destruct (decide (k = OrderManager.next_order_id om)) as [->|Hne].
      + rewrite lookup_insert_eq in Hk. right. congruence.
      + rewrite lookup_insert_ne in Hk by congruence. left. eauto.
    - intros [[k Hk]| ->].
      + exists k. rewrite lookup_insert_ne; [exact Hk|]. intros <-. congruence.
      + exists (OrderManager.next_order_id om). apply lookup_insert_eq. }
  split; [rewrite Horder; reflexivity|]. split; [rewrite Horder; reflexivity|].
  split; [exact Hnew|]. split; [exact Hall|].
  intros u o. rewrite !in_list_user_orders, Hall. split.
  - intros [Hu [Ho| ->]]; [left; auto|right].
    split; [reflexivity|]. rewrite <- Hu, Horder. reflexivity.
  - intros [[Hu Ho]|[-> ->]]; [auto|]. split; [|auto]. rewrite Horder. reflexivity.
Qed.

Lemma create_order_listed_witness :
  Order.user_username (Order.mk 2 "alice" [OrderItem.mk 1 1 1.5] "pending") = "alice" /\
  Order.status (Order.mk 2 "alice" [OrderItem.mk 1 1 1.5] "pending") = "pending" /\
  ~ In (Order.mk 2 "alice" [OrderItem.mk 1 1 1.5] "pending")
       (OrderManager.list_orders one_order) /\
  (forall o,
     In o (OrderManager.list_orders
             (snd (OrderManager.create_order sample_catalog "alice" [(1, VInt 1)] one_order))) <->
     In o (OrderManager.list_orders one_order) \/
     o = Order.mk 2 "alice" [OrderItem.mk 1 1 1.5] "pending") /\
  (forall u o,
     In o (OrderManager.list_user_orders u
             (snd (OrderManager.create_order sample_catalog "alice" [(1, VInt 1)] one_order))) <->
     In o (OrderManager.list_user_orders u one_order) \/
     (o = Order.mk 2 "alice" [OrderItem.mk 1 1 1.5] "pending" /\ u = "alice")).
Proof.
  apply (create_order_listed sample_catalog "alice" [(1, VInt 1)] one_order).
  - apply (init_orders_wf (OrderManager.storage one_order)). vm_compute. reflexivity.
  - vm_compute. reflexivity.
Defined.

(** ** The shape of accepted phone numbers and usernames *)

Lemma prefix_app (p s : string) :
  String.prefix p s = true <-> exists rest, s = p ++ rest.
Proof.
  revert s. induction p as [|a p IH]; intros s.
  - split; [intros _; exists s; reflexivity | intros _; destruct s; reflexivity].
  - destruct s as [|b s]; simpl.
    + split; [discriminate | intros [rest H]; discriminate].
    + destruct (ascii_dec a b) as [->|Hne].
      * rewrite IH. split; intros [rest H]; exists rest.
        -- rewrite H. reflexivity.
        -- simpl in H. injection H as H. exact H.
      * split; [discriminate | intros [rest H]; injection H as H1 H2; congruence].
Qed.

Lemma chars_app (a b : string) : chars (a ++ b) = (chars a ++ chars b)%list.
Proof. induction a as [|c a IH]; simpl; [reflexivity | f_equal; exact IH]. Qed.

Lemma length_app (a b : string) :
  String.length (a ++ b) = (String.length a + String.length b)%nat.
Proof. induction a as [|c a IH]; simpl; [reflexivity | f_equal; exact IH]. Qed.

(** One of the four prefixes, then seven characters that [str.isdigit]
    takes for digits. *)
Definition phone_shape (s : string) : Prop :=
  exists prefix rest,
    s = prefix ++ rest /\ In prefix Validators.PHONE_PREFIXES /\
    String.length rest = 7%nat /\ forallb is_digit (chars rest) = true.

(** X15. [validate_phonenumber] accepts exactly the strings made of one of
    the prefixes 71, 73, 77, 78 and seven more characters that [str.isdigit]
    takes for digits (the decimal digits and the superscripts 1, 2, 3). Every
    other string is refused with a ValidationError. *)
Theorem validate_phonenumber_spec (s : string) :
  (Validators.validate_phonenumber (VStr s) = Ok true <-> phone_shape s) /\
  (Validators.validate_phonenumber (VStr s) = Ok true \/
   raises (Validators.validate_phonenumber (VStr s)) ValidationError).
Proof.
  split.
  - unfold Validators.validate_phonenumber. simpl truthy. split.
    + destruct (negb (negb (String.eqb s ""))); [discriminate|].
      destruct (isdigit s) eqn:Hd; [|discriminate].
      destruct (len s =? 9) eqn:Hl; [|discriminate].
      destruct (startswith s Validators.PHONE_PREFIXES) eqn:Hp; [|discriminate].
      intros _. unfold startswith in Hp. apply existsb_exists in Hp as (p & Hin & Hp).
      apply prefix_app in Hp as [rest ->]. exists p, rest.
      split; [reflexivity|]. split; [exact Hin|].
      unfold isdigit in Hd. apply andb_true_iff in Hd as [_ Hd].
      rewrite chars_app, forallb_app in Hd. apply andb_true_iff in Hd as [_ Hd].
      split; [|exact Hd].
      apply Z.eqb_eq in Hl. unfold len in Hl. rewrite length_app in Hl.
      simpl in Hin. destruct Hin as [<-|[<-|[<-|[<-|[]]]]]; simpl in Hl; lia.
    + intros (p & rest & -> & Hin & Hlen & Hd).
      assert (Hp : String.eqb (p ++ rest) "" = false /\
                   forallb is_digit (chars p) = true /\ String.length p = 2%nat).
      { simpl in Hin. destruct Hin as [<-|[<-|[<-|[<-|[]]]]]; repeat split. }
      destruct Hp as (Hne & Hdp & Hlp).
      assert (Hst : startswith (p ++ rest) Validators.PHONE_PREFIXES = true).
      { apply existsb_exists. exists p. split; [exact Hin|]. apply prefix_app. eauto. }
      unfold isdigit, len.
      rewrite Hne, chars_app, forallb_app, Hdp, Hd, length_app, Hlp, Hlen, Hst.
      reflexivity.
  - unfold Validators.validate_phonenumber, raises, raise.
    destruct (negb (truthy (VStr s))); [right; eauto|].
    destruct (negb (isdigit s)); [right; eauto|].
    destruct (negb (len s =? 9)); [right; eauto|].
    destruct (negb (startswith s Validators.PHONE_PREFIXES)); [right; eauto|].
    left. reflexivity.
Qed.

Definition newline : string := String (ascii_of_nat 10) "".

Lemma code_newline (c : ascii) : code c = 10 -> c = ascii_of_nat 10.
Proof.
  unfold code. intros H. rewrite <- (ascii_N_embedding c).
  replace (N_of_ascii c) with 10%N by lia. reflexivity.
Qed.

Lemma username_char_not_space (c : ascii) :
  is_username_char c = true -> is_space c = false /\ code c <> 10.
Proof.
  unfold is_username_char, is_space, is_ascii_letter, is_decimal, in_range.
  intros H. split; [|lia]. lia.
Qed.

Lemma match_username_re_spec (l : list ascii) :
  match_username_re l = true <->
  exists body,
    body <> [] /\ forallb is_username_char body = true /\
    (l = body \/ l = (body ++ [ascii_of_nat 10])%list).
Proof.
  induction l as [|c l IH]; [|destruct l as [|x l]].
  - simpl. split; [discriminate|].
    intros (body & Hne & _ & [H|H]); [congruence|]. destruct body; discriminate.
  - simpl. rewrite andb_true_r. split.
    + intros Hc. exists [c]. simpl. rewrite Hc. auto.
    + intros (body & Hne & Hall & [H|H]).
      * subst body. simpl in Hall. rewrite andb_true_r in Hall. exact Hall.
      * destruct body as [|b [|b' body]]; [congruence|discriminate|discriminate].
  - change (match_username_re (c :: x :: l))
      with (is_username_char c &&
            match l with
            | [] => (code x =? 10) || is_username_char x
            | _ => match_username_re (x :: l)
            end).
    rewrite andb_true_iff. split.
    + intros [Hc H]. destruct l as [|y l].
      * apply orb_true_iff in H as [H|H].
        -- apply Z.eqb_eq, code_newline in H. subst x.
           exists [c]. simpl. rewrite Hc. auto.
        -- exists [c; x]. simpl. rewrite Hc, H. auto.
      * apply IH in H as (body & Hne & Hall & Hl).
        exists (c :: body). simpl. rewrite Hc, Hall.
        split; [discriminate|]. split; [reflexivity|].
        destruct Hl as [->| ->]; auto.
    + intros (body & Hne & Hall & Hl).
      destruct body as [|b body]; [congruence|].
      simpl in Hall. apply andb_true_iff in Hall as [Hb Hall].
      assert (c = b) by (destruct Hl as [Hl|Hl]; simpl in Hl; congruence). subst b.
      split; [exact Hb|].
      assert (Hl' : x :: l = body \/ x :: l = (body ++ [ascii_of_nat 10])%list)
        by (destruct Hl as [Hl|Hl]; simpl in Hl; [left|right]; congruence).
      destruct l as [|y l].
      * destruct Hl' as [<-|Hl'].
        -- simpl in Hall. rewrite andb_true_r in Hall. rewrite Hall. apply orb_true_r.
        -- destruct body as [|b [|b' body]]; simpl in Hl'; try discriminate.
           injection Hl' as ->. reflexivity.
      * apply IH. destruct body as [|b body].
        -- destruct Hl' as [Hl'|Hl']; discriminate.
        -- exists (b :: body). split; [discriminate|]. split; [exact Hall|exact Hl'].
Qed.

Lemma lstrip_snoc (l : list ascii) (c : ascii) :
  is_space c = false -> lstrip (l ++ [c]) <> [].
Proof.
  intros Hc. induction l as [|a l IH]; simpl.
  - rewrite Hc. discriminate.
  - destruct (is_space a); [exact IH | discriminate].
Qed.

Lemma strip_nonempty (s : string) (c : ascii) (l : list ascii) :
  chars s = c :: l -> is_space c = false -> String.eqb (strip s) "" = false.
Proof.
  intros Hs Hc. apply String.eqb_neq. unfold strip. rewrite Hs. simpl lstrip at 2.
  rewrite Hc. simpl rev at 2.
  pose proof (lstrip_snoc (rev l) c Hc) as Hne.
  destruct (lstrip (rev l ++ [c])) as [|a r]; [congruence|].
  simpl. intros H.
  apply (f_equal list_ascii_of_string) in H.
  rewrite list_ascii_of_string_of_list_ascii in H. simpl in H.
  destruct (rev r); discriminate.
Qed.

(** One or more of the characters A-Z, a-z, 0-9 and underscore, with or
    without one newline after them. *)
Definition username_shape (s : string) : Prop :=
  exists body,
    body <> "" /\ forallb is_username_char (chars body) = true /\
    (s = body \/ s = body ++ newline).

(** X16. [validate_username] accepts exactly the strings that are not among
    the existing usernames and consist of one or more letters A-Z a-z,
    digits 0-9 and underscores, and it also accepts such a string with one
    newline at its end: the [$] of the pattern matches before a final
    newline. Every other string is refused with a ValidationError. *)
Theorem validate_username_spec (s : string) (existing : list string) :
  (Validators.validate_username (VStr s) existing = Ok true <->
   username_shape s /\ ~ In s existing) /\
  (Validators.validate_username (VStr s) existing = Ok true \/
   raises (Validators.validate_username (VStr s) existing) ValidationError).
Proof.
  assert (Hin : (match existing with [] => false | _ => str_in s existing end)
                = str_in s existing) by (destruct existing; reflexivity).
  split.
  - unfold Validators.validate_username. rewrite Hin. simpl truthy. split.
    + destruct (negb (negb (String.eqb s ""))); [discriminate|].
      destruct (String.eqb (strip s) ""); [discriminate|].
      destruct (match_username_re (chars s)) eqn:Hre; [|discriminate].
      destruct (str_in s existing) eqn:Hex; [discriminate|]. intros _.
      split.
      * apply match_username_re_spec in Hre as (body & Hne & Hall & Hl).
        exists (string_of_list_ascii body).
        rewrite list_ascii_of_string_of_list_ascii.
        split; [destruct body; [congruence|discriminate]|]. split; [exact Hall|].
        destruct Hl as [Hl|Hl]; [left|right].
        -- rewrite <- Hl. symmetry. apply string_of_list_ascii_of_string.
        -- rewrite <- (string_of_list_ascii_of_string s). fold (chars s). rewrite Hl.
           clear. induction body as [|b body IH]; simpl; [reflexivity|rewrite IH; reflexivity].
      * intros H. apply str_in_spec in H. congruence.
    + intros [(body & Hne & Hall & Hl) Hnot].
      assert (Hre : match_username_re (chars s) = true).
      { apply match_username_re_spec. exists (chars body).
        split; [destruct body; [congruence|discriminate]|]. split; [exact Hall|].
        destruct Hl as [->| ->]; [left; reflexivity|right]. apply chars_app. }
      destruct body as [|b body]; [congruence|].
      simpl in Hall. apply andb_true_iff in Hall as [Hb _].
      destruct (username_char_not_space b Hb) as [Hsp _].
      assert (Hs : exists l, chars s = b :: l)
        by (destruct Hl as [->| ->]; simpl; eauto).
      destruct Hs as [l Hs].
      rewrite (strip_nonempty s b l Hs Hsp), Hre.
      assert (Hne' : String.eqb s "" = false)
        by (apply String.eqb_neq; destruct Hl as [->| ->]; discriminate).
      rewrite Hne'. simpl.
      destruct (str_in s existing) eqn:Hex; [|reflexivity].
      apply str_in_spec in Hex. contradiction.
  - unfold Validators.validate_username, raises, raise.
    destruct (negb (truthy (VStr s))); [right; eauto|].
    destruct (String.eqb (strip s) ""); [right; eauto|].
    destruct (negb (match_username_re (chars s))); [right; eauto|].
    destruct (match existing with [] => false | _ => str_in s existing end);
      [right; eauto|left; reflexivity].
Qed.

(** ** From registration to login *)

(** What a successful [add_user] returns and stores. *)
Lemma add_user_ok (username password usertype phonenumber gender : string)
  (isactive : bool) (um um' : UserManager.t) (user : User.t) :
  UserManager.add_user username password usertype phonenumber gender isactive um
  = (Ok user, um') ->
  user = User.mk username password (lower usertype) phonenumber gender isactive /\
  um' = UserManager.save_users
          (UserManager.mk (<[username := user]> (UserManager.users um))
             (UserManager.storage um)).
Proof.
  unfold UserManager.add_user.
  match goal with |- context [match ?c with Ok _ => _ | Raise _ => _ end] =>
    destruct c as [u|e] eqn:H end; [|discriminate].
  intros [= -> <-]. split; [|reflexivity].
  apply bind_ok in H as (b1 & _ & H).
  apply bind_ok in H as (b2 & _ & H).
  apply bind_ok in H as (b3 & _ & H).
  apply bind_ok in H as (b4 & _ & H).
  apply bind_ok in H as (b5 & _ & H).
  unfold User.new in H.
  apply bind_ok in H as (c1 & _ & H).
  apply bind_ok in H as (c2 & _ & H).
  apply bind_ok in H as (c3 & _ & H).
  apply bind_ok in H as (c4 & _ & H).
  apply bind_ok in H as (c5 & _ & H).
  simpl in H. injection H as <-. reflexivity.
Qed.

(** X17. A user that [add_user] has returned is stored under its username
    with the password as given and the user type in lower case, and is
    listed. [login] with that username and password then returns the user
    and makes it the current user when it was added active, and fails with
    "User account is not active" when it was added inactive; any other
    password fails with "Incorrect password". After [delete_user], which
    returns True, the user is gone and [login] fails with "Username not
    found"; the users that were there before are all still there. *)
Theorem add_user_then_login
  (sys : System.t) (username password usertype phonenumber gender : string)
  (isactive : bool) (user : User.t) (um' : UserManager.t) :
  UserManager.add_user username password usertype phonenumber gender isactive
    (System.user_manager sys) = (Ok user, um') ->
  let sys' := with_user_manager um' sys in
  let gone := UserManager.delete_user username um' in
  user = User.mk username password (lower usertype) phonenumber gender isactive /\
  UserManager.find_user username um' = Some user /\
  In user (UserManager.list_users um') /\
  System.login username password sys'
  = (if isactive
     then (Ok user,
           System.mk um' (System.product_manager sys) (System.order_manager sys) (Some user))
     else (Raise (Exn AuthenticationError "User account is not active"), sys')) /\
  (forall other,
     other <> password -> isactive = true ->
     System.login username other sys'
     = (Raise (Exn AuthenticationError "Incorrect password"), sys')) /\
  fst gone = Ok true /\
  UserManager.find_user username (snd gone) = None /\
  (forall pw,
     System.login username pw (with_user_manager (snd gone) sys)
     = (Raise (Exn AuthenticationError "Username not found"),
        with_user_manager (snd gone) sys)) /\
  (forall other,
     other <> username ->
     UserManager.find_user other (snd gone)
     = UserManager.find_user other (System.user_manager sys)).
Proof.
  intros Hadd. cbv zeta.
  apply add_user_ok in Hadd as [Huser ->].
  assert (Hfind : UserManager.find_user username
                    (UserManager.save_users
                       (UserManager.mk
                          (<[username := user]> (UserManager.users (System.user_manager sys)))
                          (UserManager.storage (System.user_manager sys)))) = Some user).
  { unfold UserManager.find_user. simpl. apply lookup_insert_eq. }
  split; [exact Huser|]. split; [exact Hfind|]. split.
  { unfold UserManager.list_users. apply in_values. exists username. exact Hfind. }
  unfold UserManager.delete_user. unfold UserManager.find_user in Hfind. rewrite Hfind.
  unfold System.login, with_user_manager. simpl System.user_manager.
  unfold UserManager.find_user. rewrite Hfind.
  split; [|split; [|split; [reflexivity|split; [|split]]]].
  - rewrite Huser. simpl. destruct isactive; simpl; [|reflexivity].
    rewrite String.eqb_refl. reflexivity.
  - intros other Hne ->. rewrite Huser. simpl.
    apply not_eq_sym, String.eqb_neq in Hne. rewrite Hne. reflexivity.
  - simpl. apply lookup_delete_eq.
  - intros pw. simpl. rewrite lookup_delete_eq. reflexivity.
  - intros other Hne. simpl. rewrite lookup_delete_ne by congruence.
    apply lookup_insert_ne. congruence.
Qed.

Lemma add_user_then_login_witness :
  System.login "carol" "S3cret!x"
    (with_user_manager
       (snd (UserManager.add_user "carol" "S3cret!x" "ADMIN" "781234567" "Female" true
               (System.user_manager two_users)))
       two_users)
  = (Ok (User.mk "carol" "S3cret!x" "admin" "781234567" "Female" true),
     System.mk
       (snd (UserManager.add_user "carol" "S3cret!x" "ADMIN" "781234567" "Female" true
               (System.user_manager two_users)))
       (System.product_manager two_users) (System.order_manager two_users)
       (Some (User.mk "carol" "S3cret!x" "admin" "781234567" "Female" true))).
Proof.
  apply (add_user_then_login two_users "carol" "S3cret!x" "ADMIN" "781234567" "Female" true).
  vm_compute. reflexivity.
Defined.

(** ** Updating a product *)

(** X18. [update_product] is not all-or-nothing. When a valid new name is
    given together with a price that [validate_price] refuses, the call
    raises the ValidationError of the price, but the name is already
    assigned: the store holds the product under its new name and old price.
    Nothing is saved, so the file still has the old name; no other product
    and not the counter is touched. *)
Theorem update_product_partial
  (pid : Z) (kwargs : list (string * pyval)) (pm : ProductManager.t)
  (prod : Product.t) (name : string) (price : pyval) :
  ProductManager.find_product pid pm = Some prod ->
  Product.supplied kwargs "name" = Some (VStr name) ->
  Validators.validate_product_name (VStr name) = Ok true ->
  Product.supplied kwargs "price" = Some price ->
  raises (Validators.validate_price price) ValidationError ->
  let out := ProductManager.update_product pid kwargs pm in
  raises (fst out) ValidationError /\
  ProductManager.find_product pid (snd out)
  = Some (Product.mk (Product.id prod) name (Product.price prod) (Product.is_active prod)) /\
  ProductManager.storage (snd out) = ProductManager.storage pm /\
  ProductManager.next_id (snd out) = ProductManager.next_id pm /\
  (forall other, other <> pid ->
     ProductManager.find_product other (snd out) = ProductManager.find_product other pm).
Proof.
  intros Hfind Hname Hvalid Hprice [msg Hbad]. cbv zeta.
  unfold ProductManager.update_product, ProductManager.find_product in *.
  rewrite Hfind. unfold Product.update. rewrite Hname, Hprice, Hvalid, Hbad. simpl.
  split; [exists msg; reflexivity|]. split; [apply lookup_insert_eq|].
  split; [reflexivity|]. split; [reflexivity|].
  intros other Hne. apply lookup_insert_ne. congruence.
Qed.

Lemma update_product_partial_witness :
  ProductManager.find_product 1
    (snd (ProductManager.update_product 1
            [("name", VStr "Pencil"); ("price", VFloat (-1))] sample_catalog))
  = Some (Product.mk 1 "Pencil" 1.5 true).
Proof.
  apply (update_product_partial 1 [("name", VStr "Pencil"); ("price", VFloat (-1))]
           sample_catalog (Product.mk 1 "Pen" 1.5 true) "Pencil" (VFloat (-1))).
  - vm_compute. reflexivity.
  - reflexivity.
  - vm_compute. reflexivity.
  - reflexivity.
  - eexists. vm_compute. reflexivity.
Defined.

(** X19. Archiving can be undone through [update_product]: after
    [delete_product] has archived an active product, an [update_product]
    that supplies only a true [is_active] returns the product as it was
    before, and the products of the catalog and its counter are those from
    before the archiving. *)
Theorem archive_then_reactivate
  (pid : Z) (kwargs : list (string * pyval)) (v : pyval)
  (pm : ProductManager.t) (p : Product.t) :
  ProductManager.find_product pid pm = Some p ->
  Product.is_active p = true ->
  Product.supplied kwargs "name" = None ->
  Product.supplied kwargs "price" = None ->
  Product.supplied kwargs "is_active" = Some v ->
  truthy v = true ->
  let archived := ProductManager.delete_product pid true pm in
  let out := ProductManager.update_product pid kwargs (snd archived) in
  fst archived = Ok true /\
  ProductManager.find_product pid (snd archived) = Some (ProductManager.archive p) /\
  fst out = Ok p /\
  ProductManager.products (snd out) = ProductManager.products pm /\
  ProductManager.next_id (snd out) = ProductManager.next_id pm.
Proof.
  intros Hfind Hactive Hname Hprice Hflag Hv. cbv zeta.
  unfold ProductManager.delete_product, ProductManager.find_product in *.
  rewrite Hfind. simpl.
  unfold ProductManager.update_product. simpl. rewrite lookup_insert_eq.
  unfold Product.update. rewrite Hname, Hprice, Hflag, Hv. simpl.
  assert (Hp : Product.mk (Product.id p) (Product.name p) (Product.price p) true = p)
    by (destruct p; simpl in *; congruence).
  rewrite Hp.
  split; [reflexivity|]. split; [reflexivity|]. split; [reflexivity|].
  split; [|reflexivity].
  rewrite insert_insert_eq. apply insert_id. exact Hfind.
Qed.

Lemma archive_then_reactivate_witness :
  fst (ProductManager.update_product 2 [("is_active", VBool true)]
         (snd (ProductManager.delete_product 2 true sample_catalog)))
  = Ok (Product.mk 2 "Book" 0x1.3fae147ae147bp+3 true).
Proof.
  apply (archive_then_reactivate 2 [("is_active", VBool true)] (VBool true)
           sample_catalog (Product.mk 2 "Book" 0x1.3fae147ae147bp+3 true)).
  - vm_compute. reflexivity.
  - reflexivity.
  - reflexivity.
  - reflexivity.
  - reflexivity.
  - reflexivity.
Defined.

(** ** What add_product accepts *)

Lemma lstrip_nil (l : list ascii) : lstrip l = [] <-> forallb is_space l = true.
Proof.
  induction l as [|c l IH]; simpl; [tauto|].
  destruct (is_space c); simpl; [exact IH | split; discriminate].
Qed.

Lemma lstrip_head (l : list ascii) (c : ascii) (l' : list ascii) :
  lstrip l = c :: l' -> is_space c = false.
Proof.
  induction l as [|a l IH]; simpl; [discriminate|].
  destruct (is_space a) eqn:Ha; [exact IH | intros [= <- _]; exact Ha].
Qed.

(** [s.strip()] is empty exactly when [s] is made of whitespace. *)
Lemma strip_empty (s : string) :
  String.eqb (strip s) "" = true <-> forallb is_space (chars s) = true.
Proof.
  rewrite String.eqb_eq, <- lstrip_nil. unfold strip.
  destruct (lstrip (chars s)) as [|c l] eqn:Hl.
  - split; reflexivity.
  - split; [|discriminate]. intros H. exfalso.
    apply lstrip_head in Hl. simpl rev at 2 in H.
    pose proof (lstrip_snoc (rev l) c Hl) as Hne.
    destruct (lstrip (rev l ++ [c])) as [|a r]; [congruence|].
    apply (f_equal list_ascii_of_string) in H.
    rewrite list_ascii_of_string_of_list_ascii in H. simpl in H.
    destruct (rev r); discriminate.
Qed.

(** [p < 0] is false for the floats that are zero or above, and for NaN. *)
Lemma not_below_zero (f : float) :
  PrimFloat.ltb f 0 = false <-> PrimFloat.is_nan f = true \/ PrimFloat.leb 0 f = true.
Proof.
  unfold PrimFloat.is_nan.
  rewrite FloatAxioms.ltb_spec, FloatAxioms.leb_spec, FloatAxioms.eqb_spec.
  change (Prim2SF 0) with (S754_zero false).
  destruct (Prim2SF f) as [s|s| |s m e]; unfold SFltb, SFleb, SFeqb; simpl.
  - tauto.
  - destruct s; simpl; intuition discriminate.
  - tauto.
  - rewrite Z.compare_refl, Pos.compare_refl. destruct s; simpl; intuition discriminate.
Qed.

(** A name with a character that is not whitespace, and a price that is
    zero or above, or NaN. *)
Definition acceptable_product (name : string) (f : float) : Prop :=
  forallb is_space (chars name) = false /\
  (PrimFloat.is_nan f = true \/ PrimFloat.leb 0 f = true).

(** X20. [add_product] with a float for the price succeeds exactly when the
    name has a character that is not whitespace and the price is zero or
    above, or is NaN, which the test [p < 0] does not catch. The product it
    returns has the manager's [next_id] for its id, the name and price as
    given, and is active; it is stored under that id and the counter has
    gone up by one. Otherwise a ValidationError is raised and the manager is
    as before. *)
Theorem add_product_accepts (name : string) (f : float) (pm : ProductManager.t) :
  (acceptable_product name f ->
   fst (ProductManager.add_product name (VFloat f) pm)
   = Ok (Product.mk (ProductManager.next_id pm) name f true) /\
   ProductManager.find_product (ProductManager.next_id pm)
     (snd (ProductManager.add_product name (VFloat f) pm))
   = Some (Product.mk (ProductManager.next_id pm) name f true) /\
   ProductManager.next_id (snd (ProductManager.add_product name (VFloat f) pm))
   = ProductManager.next_id pm + 1) /\
  (~ acceptable_product name f ->
   raises (fst (ProductManager.add_product name (VFloat f) pm)) ValidationError /\
   snd (ProductManager.add_product name (VFloat f) pm) = pm).
Proof.
  unfold acceptable_product, ProductManager.add_product, Product.new.
  unfold Validators.validate_product_name, Validators.validate_price,
    Validators.validate_product_id. simpl py_float. simpl truthy. cbv iota.
  assert (Hempty : String.eqb name "" = true -> String.eqb (strip name) "" = true).
  { intros H. apply String.eqb_eq in H. subst name. reflexivity. }
  pose proof (strip_empty name) as Hstrip.
  pose proof (not_below_zero f) as Hf.
  destruct (String.eqb (strip name) "") eqn:Hs.
  - assert (Hsp : forallb is_space (chars name) = true) by (apply Hstrip; reflexivity).
    split.
    + intros [Hn _]. congruence.
    + intros _. destruct (negb (String.eqb name "")); simpl;
        (split; [eexists; reflexivity | reflexivity]).
  - assert (Hn : String.eqb name "" = false)
      by (destruct (String.eqb name ""); [discriminate (Hempty eq_refl) | reflexivity]).
    assert (Hsp : forallb is_space (chars name) = false).
    { destruct (forallb is_space (chars name)); [|reflexivity].
      destruct Hstrip as [_ H]. discriminate (H eq_refl). }
    rewrite Hn. simpl negb. cbv iota.
    destruct (PrimFloat.ltb f 0) eqn:Hlt; simpl.
    + split.
      * intros [_ Hacc]. apply Hf in Hacc. discriminate.
      * intros _. split; [eexists; reflexivity | reflexivity].
    + split.
      * intros _. rewrite Hlt. simpl.
        split; [reflexivity|]. split; [|reflexivity].
        unfold ProductManager.find_product. simpl. apply lookup_insert_eq.
      * intros Hno. exfalso. apply Hno. split; [exact Hsp|]. apply Hf. reflexivity.
Qed.

Lemma add_product_accepts_witness :
  fst (ProductManager.add_product "Ink" (VFloat nan) sample_catalog)
  = Ok (Product.mk (ProductManager.next_id sample_catalog) "Ink" nan true).
Proof.
  apply (proj1 (add_product_accepts "Ink" nan sample_catalog)).
  split; [reflexivity | left; reflexivity].
Defined.

(** ** The total of an order *)

Lemma sum_lines_app (l1 l2 : list OrderItem.t) (total : float) :
  Order.sum_lines (l1 ++ l2) total
  = (t <- Order.sum_lines l1 total ;; Order.sum_lines l2 t).
Proof.
  revert total. induction l1 as [|it l1 IH]; intros total; simpl; [reflexivity|].
  destruct (Order.add_line total it) as [t|e]; simpl; [apply IH | reflexivity].
Qed.

(** X21. The total of a new order is 0.0, and the total after [add_item] is
    the total before it plus quantity times price of the new item, in float
    arithmetic; it raises what the total before it raised, or the
    OverflowError of a quantity too large for a float. *)
Theorem calculate_total_add_item :
  (forall order_id username,
     Order.calculate_total (Order.new order_id username) = Ok 0%float) /\
  (forall it o,
     Order.calculate_total (Order.add_item it o)
     = (total <- Order.calculate_total o ;;
        q <- float_of_int (OrderItem.quantity it) ;;
        Ok (total + q * OrderItem.price_at_order it)%float)).
Proof.
  split; [reflexivity|].
  intros it o.
  unfold Order.calculate_total. simpl Order.items. rewrite sum_lines_app.
  destruct (Order.sum_lines (Order.items o) 0) as [t|e]; simpl; [|reflexivity].
  unfold Order.add_line. destruct (float_of_int (OrderItem.quantity it)); reflexivity.
Qed.
